(** * SensorAbsloc: fusing an absolute-localisation sensor into the robot pose

    Shallow embedding of [src/include/rtslam/sensorAbsloc.hpp] (class
    [jafar::rtslam::SensorAbsloc]) and the properties of its [init] and
    [process] methods.

    Numbers are the C++ [double]s of the source, modelled as the kernel's
    binary64 floats.  [jblas::vec] is a list of floats, [jblas::mat] a list
    of rows.  A C++ exception leaves every earlier assignment in place, so a
    method is a function from the state to the state it leaves behind and
    either a value or the exception it raised. *)

From Stdlib Require Import List Bool Arith Lia PrimFloat.
From Stdlib Require Import ZArith FloatOps FloatAxioms SpecFloat.
Import ListNotations.

(* Decimal constants such as 10.6 stand for the nearest binary64 value. *)
Set Warnings "-inexact-float".

(** ** Vectors and matrices (jblas / ublas) *)

Definition vec := list float.
Definition mat := list vec.

Fixpoint mapi_from {A B : Type} (f : nat -> A -> B) (k : nat) (l : list A) : list B :=
  match l with
  | [] => []
  | a :: t => f k a :: mapi_from f (S k) t
  end.

Definition mapi {A B : Type} (f : nat -> A -> B) (l : list A) : list B :=
  mapi_from f 0 l.

Fixpoint zipWith {A B C : Type} (f : A -> B -> C) (l : list A) (r : list B) : list C :=
  match l, r with
  | a :: l', b :: r' => f a b :: zipWith f l' r'
  | _, _ => []
  end.

(** [v(i)] and [m(i,j)] as r-values. *)
Definition vget (v : vec) (i : nat) : float := nth i v 0%float.
Definition mget (m : mat) (i j : nat) : float := vget (nth i m []) j.

(** [v(i) = a] and [m(i,j) = a]. *)
Definition vset (i : nat) (a : float) (v : vec) : vec :=
  mapi (fun k old => if k =? i then a else old) v.
Definition mset (i j : nat) (a : float) (m : mat) : mat :=
  mapi (fun k row => if k =? i then vset j a row else row) m.

Definition in_range (lo hi k : nat) : bool := (lo <=? k) && (k <? hi).

(** [ublas::subrange(v, lo, hi)] read, and [ublas::subrange(v, lo, hi) = w]. *)
Definition subrange (v : vec) (lo hi : nat) : vec := firstn (hi - lo) (skipn lo v).
Definition set_subrange (lo hi : nat) (w v : vec) : vec :=
  mapi (fun k old => if in_range lo hi k then nth (k - lo) w old else old) v.

(** [ublas::subrange(m, r0, r1, c0, c1)] read, and assignment to it. *)
Definition msubrange (m : mat) (r0 r1 c0 c1 : nat) : mat :=
  map (fun row => subrange row c0 c1) (firstn (r1 - r0) (skipn r0 m)).
Definition set_msubrange (r0 r1 c0 c1 : nat) (b m : mat) : mat :=
  mapi (fun k row => if in_range r0 r1 k
                     then set_subrange c0 c1 (nth (k - r0) b []) row
                     else row) m.

Definition zero_vec (n : nat) : vec := repeat 0%float n.
Definition zero_mat (r c : nat) : mat := repeat (zero_vec c) r.
Definition identity_mat (n : nat) : mat :=
  map (fun i => map (fun j => if i =? j then 1%float else 0%float) (seq 0 n)) (seq 0 n).

Definition vadd (a b : vec) : vec := zipWith PrimFloat.add a b.
Definition vsub (a b : vec) : vec := zipWith PrimFloat.sub a b.
Definition madd (a b : mat) : mat := zipWith vadd a b.
Definition mopp (a : mat) : mat := map (map PrimFloat.opp) a.

(** Modelled from the spec: [jmath::sqr] is declared in jmath/misc.hpp, which
    is not part of this header; "the squared per-axis standard deviation". *)
Definition sqr (x : float) : float := (x * x)%float.

(** A matrix with [r] rows of [c] entries. *)
Definition shape (r c : nat) (m : mat) : Prop :=
  length m = r /\ Forall (fun row => length row = c) m.

Definition diagonal (m : mat) : Prop :=
  forall i j, i <> j -> mget m i j = 0%float.

(** ** The data of the sensor and of its collaborators *)

(** [Gaussian]: the base of [Innovation], [Measurement] and [Expectation],
    and the type of a pose; [size()], [x()] and [P()]. *)
Record Gaussian := mkGaussian { size : nat; x : vec; P : mat }.

Definition set_x (v : vec) (g : Gaussian) : Gaussian := mkGaussian (size g) v (P g).
Definition set_P (m : mat) (g : Gaussian) : Gaussian := mkGaussian (size g) (x g) m.

(** Modelled from the spec: the constructors [Innovation(n)],
    [Measurement(n)] and [Expectation(n)] are declared outside this header;
    "mean vector (size n) and covariance matrix (n x n)", here filled with
    zeros. *)
Definition new_Gaussian (n : nat) : Gaussian := mkGaussian n (zero_vec n) (zero_mat n n).

(** What [robotPtr()] gives access to: the origin and the robot pose.  The
    pose is the block of the filter state that [ia_rs] selects, the sensor
    being built with the default [UNFILTERED], so that
    [project(filterPtr->P(), ia_rs, ia_rs)] is [pose.P()]. *)
Module Robot.
Record t := mk { origin : vec; pose : Gaussian }.
Definition set_origin (o : vec) (r : t) : t := mk o (pose r).
Definition set_pose (p : Gaussian) (r : t) : t := mk (origin r) p.
End Robot.

(** The hardware sensor: [dataSize()], [varianceSize()], the raws that
    [queryAvailableRaws] lists, [observeRaw] and [getRaw].  A raw is
    [reading.data]: the date, [dataSize] values, then the variances. *)
Record RawInfo := mkRawInfo { id : nat }.

Record hardware := mkHardware {
  dataSize : nat;
  varianceSize : nat;
  available : list RawInfo;
  observeRaw : nat -> vec;
  getRaw : nat -> vec
}.

(** The two [JFR_ERROR]s of [process], both [RtslamException::GENERIC_ERROR]. *)
Inductive RtslamException :=
| ConstantUncertaintyNotImplemented
| ReadingSizeNotSupported (reading_size : nat).

(** Calls that leave the sensor, in the order they are made. *)
Inductive event :=
| EvGetRaw (i : nat)
| EvCorrect (inn : Gaussian) (INN_rs : mat).

Record state := mkState {
  EXP_rs : mat;
  INN_rs : mat;
  EXP_q : mat;
  innovation : Gaussian;
  measurement : Gaussian;
  expectation : Gaussian;
  hasVar : bool;
  inns : nat;
  absolute : bool;
  use_for_init : bool;
  reading : vec;
  pose : Gaussian;
  robot : Robot.t;
  trace : list event
}.

Definition set_EXP_rs (v : mat) (s : state) : state :=
  mkState v (INN_rs s) (EXP_q s) (innovation s) (measurement s) (expectation s)
          (hasVar s) (inns s) (absolute s) (use_for_init s) (reading s) (pose s)
          (robot s) (trace s).
Definition set_INN_rs (v : mat) (s : state) : state :=
  mkState (EXP_rs s) v (EXP_q s) (innovation s) (measurement s) (expectation s)
          (hasVar s) (inns s) (absolute s) (use_for_init s) (reading s) (pose s)
          (robot s) (trace s).
Definition set_EXP_q (v : mat) (s : state) : state :=
  mkState (EXP_rs s) (INN_rs s) v (innovation s) (measurement s) (expectation s)
          (hasVar s) (inns s) (absolute s) (use_for_init s) (reading s) (pose s)
          (robot s) (trace s).
Definition set_innovation (v : Gaussian) (s : state) : state :=
  mkState (EXP_rs s) (INN_rs s) (EXP_q s) v (measurement s) (expectation s)
          (hasVar s) (inns s) (absolute s) (use_for_init s) (reading s) (pose s)
          (robot s) (trace s).
Definition set_measurement (v : Gaussian) (s : state) : state :=
  mkState (EXP_rs s) (INN_rs s) (EXP_q s) (innovation s) v (expectation s)
          (hasVar s) (inns s) (absolute s) (use_for_init s) (reading s) (pose s)
          (robot s) (trace s).
Definition set_expectation (v : Gaussian) (s : state) : state :=
  mkState (EXP_rs s) (INN_rs s) (EXP_q s) (innovation s) (measurement s) v
          (hasVar s) (inns s) (absolute s) (use_for_init s) (reading s) (pose s)
          (robot s) (trace s).
Definition set_hasVar (v : bool) (s : state) : state :=
  mkState (EXP_rs s) (INN_rs s) (EXP_q s) (innovation s) (measurement s) (expectation s)
          v (inns s) (absolute s) (use_for_init s) (reading s) (pose s)
          (robot s) (trace s).
Definition set_inns (v : nat) (s : state) : state :=
  mkState (EXP_rs s) (INN_rs s) (EXP_q s) (innovation s) (measurement s) (expectation s)
          (hasVar s) v (absolute s) (use_for_init s) (reading s) (pose s)
          (robot s) (trace s).
Definition set_use_for_init (v : bool) (s : state) : state :=
  mkState (EXP_rs s) (INN_rs s) (EXP_q s) (innovation s) (measurement s) (expectation s)
          (hasVar s) (inns s) (absolute s) v (reading s) (pose s)
          (robot s) (trace s).
Definition set_reading (v : vec) (s : state) : state :=
  mkState (EXP_rs s) (INN_rs s) (EXP_q s) (innovation s) (measurement s) (expectation s)
          (hasVar s) (inns s) (absolute s) (use_for_init s) v (pose s)
          (robot s) (trace s).
Definition set_robot (v : Robot.t) (s : state) : state :=
  mkState (EXP_rs s) (INN_rs s) (EXP_q s) (innovation s) (measurement s) (expectation s)
          (hasVar s) (inns s) (absolute s) (use_for_init s) (reading s) (pose s)
          v (trace s).
Definition log (e : event) (s : state) : state :=
  mkState (EXP_rs s) (INN_rs s) (EXP_q s) (innovation s) (measurement s) (expectation s)
          (hasVar s) (inns s) (absolute s) (use_for_init s) (reading s) (pose s)
          (robot s) (trace s ++ [e]).

(** ** Methods as state transformers that may throw *)

Inductive result (A : Type) : Type :=
| Ok (a : A)
| Throw (e : RtslamException).
Arguments Ok {A} a.
Arguments Throw {A} e.

Definition M (A : Type) : Type := state -> state * result A.

Definition ret {A : Type} (a : A) : M A := fun s => (s, Ok a).
Definition bind {A B : Type} (m : M A) (k : A -> M B) : M B :=
  fun s => match m s with
           | (s', Ok a) => k a s'
           | (s', Throw e) => (s', Throw e)
           end.
Definition gets {A : Type} (f : state -> A) : M A := fun s => (s, Ok (f s)).
Definition modify (f : state -> state) : M unit := fun s => (f s, Ok tt).
Definition JFR_ERROR {A : Type} (e : RtslamException) : M A := fun s => (s, Throw e).

Notation "v <- m ;; k" := (bind m (fun v => k))
  (at level 61, m at next level, right associativity).
Notation "m ;; k" := (bind m (fun _ => k))
  (at level 61, right associativity).

(** ** Collaborators that are declared outside this header

    [quaternion::rotate] and [quaternion::rotate_by_dq] (quatTools.hpp),
    [ublasExtra::prod_JPJt] (ublasExtra.hpp) and the filter's [correct] are
    used through their interface only.  [correct inn J p] is what
    [filterPtr->correct(ia_x, *innovation, INN_rs, ia_rs)] leaves in the
    robot pose [p]; the filter has no access to [origin]. *)
Class Externals := {
  rotate : vec -> vec -> vec;
  rotate_by_dq : vec -> vec -> mat;
  prod_JPJt : mat -> mat -> mat;
  correct : Gaussian -> mat -> Gaussian -> Gaussian
}.

(** The sizes the quaternion tools return: a 3-vector and a 3x4 Jacobian. *)
Class ExternalsSized (E : Externals) : Prop := {
  rotate_size : forall q v, length (rotate q v) = 3;
  rotate_by_dq_shape : forall q v, shape 3 4 (rotate_by_dq q v)
}.

(** ** [SensorAbsloc::setHardwareSensor] *)

(** The constructor: [ia_rs(ia_globalPose)], three null Gaussians,
    [hasVar(false)], [inns(0)].  [use_for_init], the [reading] buffer and the
    sensor's own [pose] are members of the base class. *)
Definition SensorAbsloc (rob : Robot.t) (abs ufi : bool) (sensor_pose : Gaussian)
           (buffer : vec) : state :=
  mkState [] [] [] (new_Gaussian 0) (new_Gaussian 0) (new_Gaussian 0)
          false 0 abs ufi buffer sensor_pose rob [].

(** [ia_rs.size()]: the seven components of the robot pose. *)
Definition ia_rs_size : nat := 7.

Definition setHardwareSensor (hw : hardware) (s : state) : state :=
  let s := set_inns (dataSize hw) s in
  let s := set_innovation (new_Gaussian (inns s)) s in
  let s := set_measurement (new_Gaussian (inns s)) s in
  let s := set_expectation (new_Gaussian (inns s)) s in
  let s := set_EXP_rs (zero_mat (inns s) ia_rs_size) s in
  let s := set_INN_rs (zero_mat (inns s) ia_rs_size) s in
  let s := set_EXP_q (zero_mat (inns s) 4) s in
  if varianceSize hw =? dataSize hw then set_hasVar true s else s.

(** ** [SensorAbsloc::init] *)

(** [for(int i = 0; i < 3; ++i) body]. *)
Definition for3 {A : Type} (body : nat -> A -> A) (a : A) : A :=
  body 2 (body 1 (body 0 a)).

(** The raws a loop [for (it = begin; it != end; ++it) { ...; if (it->id == id) break; }]
    visits. *)
Fixpoint visited (i : nat) (l : list RawInfo) : list RawInfo :=
  match l with
  | [] => []
  | it :: t => it :: (if id it =? i then [] else visited i t)
  end.

(** First loop body: the raw becomes [reading], then the running minimum. *)
Definition min_var_body (hw : hardware) (n : nat) (acc : vec * vec) (it : RawInfo)
  : vec * vec :=
  let reading := observeRaw hw (id it) in
  (reading,
   for3 (fun i min_var =>
           if (vget reading (i + 1 + n) <? vget min_var i)%float
           then vset i (vget reading (i + 1 + n)) min_var
           else min_var) (snd acc)).

(** Second loop body, with [average] and [sum_coeffs]. *)
Definition average_body (hw : hardware) (n : nat) (min_var : vec)
           (acc : vec * (vec * vec)) (it : RawInfo) : vec * (vec * vec) :=
  let reading := observeRaw hw (id it) in
  (reading,
   for3 (fun i '(average, sum_coeffs) =>
           if (vget reading (i + 1 + n) <? 2 * vget min_var i)%float
           then (vset i (vget average i + vget reading (i + 1) * vget reading (i + 1 + n))%float average,
                 vset i (vget sum_coeffs i + vget reading (i + 1 + n))%float sum_coeffs)
           else (average, sum_coeffs)) (snd acc)).

(** The locals of [init] once both loops and the division are done:
    [(reading, min_var, average)]. *)
Definition init_locals (hw : hardware) (n : nat) (i : nat) (reading : vec)
  : vec * vec * vec :=
  let infos := visited i (available hw) in
  let '(reading, min_var) :=
    fold_left (min_var_body hw n) infos (reading, repeat 1e3%float 3) in
  let '(reading, (average, sum_coeffs)) :=
    fold_left (average_body hw n min_var) infos (reading, (zero_vec 3, zero_vec 3)) in
  let average :=
    for3 (fun i average => vset i (vget average i / vget sum_coeffs i)%float average) average in
  (reading, min_var, average).

Definition init_reading (hw : hardware) (n : nat) (i : nat) (reading : vec) : vec :=
  let '(reading, min_var, average) := init_locals hw n i reading in
  for3 (fun i reading =>
          vset (i + 1 + n) (vget min_var i) (vset (i + 1) (vget average i) reading))
       reading.

Definition init (hw : hardware) (i : nat) : M unit :=
  modify (fun s => set_reading (init_reading hw (inns s) i (reading s)) s).

(** [hardwareSensorPtr->getRaw(id, reading)]. *)
Definition hw_getRaw (hw : hardware) (i : nat) : M unit :=
  modify (fun s => log (EvGetRaw i) (set_reading (getRaw hw i) s)).

(** ** [SensorAbsloc::process] *)

Definition on_robot (f : Robot.t -> Robot.t) : M unit :=
  modify (fun s => set_robot (f (robot s)) s).
Definition on_robot_pose (f : state -> Gaussian -> Gaussian) : M unit :=
  modify (fun s => set_robot (Robot.set_pose (f s (Robot.pose (robot s))) (robot s)) s).
Definition on_measurement (f : state -> Gaussian -> Gaussian) : M unit :=
  modify (fun s => set_measurement (f s (measurement s)) s).
Definition on_expectation (f : state -> Gaussian -> Gaussian) : M unit :=
  modify (fun s => set_expectation (f s (expectation s)) s).
Definition on_innovation (f : state -> Gaussian -> Gaussian) : M unit :=
  modify (fun s => set_innovation (f s (innovation s)) s).

Definition origin_of (s : state) : vec := Robot.origin (robot s).

Section Process.
Context {E : Externals}.

(** The first-reading branch: forced initialisation of the robot. *)
Definition force_init (Tr : vec) : M unit :=
  abs <- gets absolute ;;
  n <- gets (fun s => size (innovation s)) ;;
  if abs then
    if n =? 3 then
      on_robot (Robot.set_origin (zero_vec 3)) ;;
      on_robot_pose (fun s p => set_x (set_subrange 0 3 (vsub (x (measurement s)) Tr) (x p)) p) ;;
      on_robot_pose (fun s p =>
        set_P (set_msubrange 0 3 0 3
                 (madd (P (measurement s))
                       (prod_JPJt (msubrange (P p) 3 7 3 7) (EXP_q s)))
                 (P p)) p)
    else ret tt
  else
    if n =? 3 then
      modify (fun s => set_robot (Robot.set_origin (vsub (x (measurement s)) Tr) (robot s)) s) ;;
      on_robot_pose (fun s p => set_x (set_subrange 0 3 (zero_vec 3) (x p)) p) ;;
      on_robot_pose (fun s p =>
        set_P (set_msubrange 0 3 0 3
                 (madd (P (measurement s))
                       (prod_JPJt (msubrange (P p) 3 7 3 7) (EXP_q s)))
                 (P p)) p)
    else ret tt.

(** [case 3: // POS only] of the first switch. *)
Definition model_pos (T p q Tr : vec) : M unit :=
  modify (set_EXP_q (rotate_by_dq q T)) ;;
  modify (fun s => set_EXP_rs (set_msubrange 0 3 0 3 (identity_mat 3) (EXP_rs s)) s) ;;
  modify (fun s => set_EXP_rs (set_msubrange 0 3 3 7 (EXP_q s) (EXP_rs s)) s) ;;
  on_expectation (fun _ => set_x (vadd p Tr)) ;;
  on_expectation (fun s => set_P (prod_JPJt (P (Robot.pose (robot s))) (EXP_rs s))) ;;
  on_measurement (fun s g =>
    set_x (vset 0 (vget (reading s) 2 - vget (origin_of s) 0)%float (x g)) g) ;;
  on_measurement (fun s g =>
    set_x (vset 1 (vget (reading s) 1 - vget (origin_of s) 1)%float (x g)) g) ;;
  on_measurement (fun s g =>
    set_x (vset 2 (vget (reading s) 3 - vget (origin_of s) 2)%float (x g)) g) ;;
  hv <- gets hasVar ;;
  (if hv then
     on_measurement (fun s g => set_P (mset 0 0 (sqr (vget (reading s) (2 + inns s))) (P g)) g) ;;
     on_measurement (fun s g => set_P (mset 1 1 (sqr (vget (reading s) (1 + inns s))) (P g)) g) ;;
     on_measurement (fun s g => set_P (mset 2 2 (sqr (vget (reading s) (3 + inns s))) (P g)) g)
   else JFR_ERROR ConstantUncertaintyNotImplemented) ;;
  on_innovation (fun s => set_x (vsub (x (measurement s)) (x (expectation s)))) ;;
  on_innovation (fun s => set_P (madd (P (measurement s)) (P (expectation s)))) ;;
  modify (fun s => set_INN_rs (mopp (EXP_rs s)) s).

(** The method, statement by statement.  The line that prints the origin
    and the initial position on the first reading changes nothing and is
    left out. *)
Definition process (hw : hardware) (i : nat) : M unit :=
  ufi <- gets use_for_init ;;
  (if ufi then init hw i else hw_getRaw hw i) ;;
  o <- gets origin_of ;;
  first <- (if length o =? 0
            then on_robot (Robot.set_origin (zero_vec 3)) ;; ret true
            else ret false) ;;
  T <- gets (fun s => subrange (x (pose s)) 0 3) ;;
  p <- gets (fun s => subrange (x (Robot.pose (robot s))) 0 3) ;;
  q <- gets (fun s => subrange (x (Robot.pose (robot s))) 3 7) ;;
  let Tr := rotate q T in
  n <- gets (fun s => size (innovation s)) ;;
  (if n =? 3 then model_pos T p q Tr
   else r <- gets reading ;; JFR_ERROR (ReadingSizeNotSupported (length r))) ;;
  (if first : bool then force_init Tr
   else
     inn <- gets innovation ;;
     J <- gets INN_rs ;;
     modify (log (EvCorrect inn J)) ;;
     on_robot_pose (fun _ => correct inn J)) ;;
  ufi <- gets use_for_init ;;
  if ufi then modify (set_use_for_init false) ;; hw_getRaw hw i
  else ret tt.

(** A run of the sensor: the caller hands over one reading after the other
    and goes on after an exception. *)
Fixpoint run (calls : list (hardware * nat)) (s : state) : state :=
  match calls with
  | [] => s
  | (hw, i) :: rest => run rest (fst (process hw i s))
  end.
End Process.

(** ** An instance of the collaborators, to run the sensor on concrete data *)

(** Modelled from the spec: [quaternion::rotate] is declared in quatTools.hpp,
    which is not part of this header; "rotate a 3-vector by a unit
    quaternion", with [q = (a, b, c, d)] the scalar first. *)
Definition quat_rotate (q v : vec) : vec :=
  let a := vget q 0 in let b := vget q 1 in let c := vget q 2 in let d := vget q 3 in
  let vx := vget v 0 in let vy := vget v 1 in let vz := vget v 2 in
  [ ((a*a + b*b - c*c - d*d) * vx + 2 * (b*c - a*d) * vy + 2 * (b*d + a*c) * vz)%float;
    (2 * (b*c + a*d) * vx + (a*a - b*b + c*c - d*d) * vy + 2 * (c*d - a*b) * vz)%float;
    (2 * (b*d - a*c) * vx + 2 * (c*d + a*b) * vy + (a*a - b*b - c*c + d*d) * vz)%float ].

(** Modelled from the spec: [quaternion::rotate_by_dq] (quatTools.hpp), "the
    Jacobian of that rotation with respect to the quaternion": the partial
    derivatives of [quat_rotate q v] in [a], [b], [c] and [d]. *)
Definition quat_rotate_by_dq (q v : vec) : mat :=
  let a := vget q 0 in let b := vget q 1 in let c := vget q 2 in let d := vget q 3 in
  let vx := vget v 0 in let vy := vget v 1 in let vz := vget v 2 in
  let axdycz := (2 * (a*vx - d*vy + c*vz))%float in
  let bxcydz := (2 * (b*vx + c*vy + d*vz))%float in
  let cxbyaz := (2 * (c*vx - b*vy - a*vz))%float in
  let dxaybz := (2 * (d*vx + a*vy - b*vz))%float in
  [ [ axdycz; bxcydz; (- cxbyaz)%float; (- dxaybz)%float ];
    [ dxaybz; cxbyaz; bxcydz; axdycz ];
    [ (- cxbyaz)%float; dxaybz; (- axdycz)%float; bxcydz ] ].

Definition dot (a b : vec) : float :=
  fold_left PrimFloat.add (zipWith PrimFloat.mul a b) 0%float.
Definition mat_vec (m : mat) (v : vec) : vec := map (fun row => dot row v) m.

(** Modelled from the spec: [ublasExtra::prod_JPJt(P, J)] (ublasExtra.hpp),
    the "matrix sandwich [J.P.Jt]"; entry [(i, k)] is [J_i . (P J_k)]. *)
Definition JPJt (p j : mat) : mat :=
  map (fun ji => map (fun jk => dot ji (mat_vec p jk)) j) j.

(** A stand-in for the filter: it moves the position by the innovation mean
    and leaves the covariance (a unit gain on the position). *)
Definition unit_gain_correct (inn : Gaussian) (J : mat) (p : Gaussian) : Gaussian :=
  set_x (set_subrange 0 3 (vadd (subrange (x p) 0 3) (x inn)) (x p)) p.

#[export] Instance quat_externals : Externals := {
  rotate := quat_rotate;
  rotate_by_dq := quat_rotate_by_dq;
  prod_JPJt := JPJt;
  correct := unit_gain_correct
}.

(** Sample data: a robot at rest with the identity quaternion and a unit
    covariance, not yet located; a position sensor with variances. *)
Definition identity_quaternion : vec := [1; 0; 0; 0]%float.

Definition robot0 : Robot.t :=
  Robot.mk [] (mkGaussian 7 (zero_vec 3 ++ identity_quaternion) (identity_mat 7)).

(** A hardware sensor that holds the raws [raws], raw [k] under id [k]. *)
Definition hw_of (n nvar : nat) (raws : list vec) : hardware :=
  mkHardware n nvar (map mkRawInfo (seq 0 (length raws)))
             (fun k => nth k raws []) (fun k => nth k raws []).

Definition raw555 : vec := [0; 5; 5; 5; 0.5; 0.5; 0.5]%float.
Definition hw555 : hardware := hw_of 3 3 [raw555].

(** The sensor at the robot's reference point ([T = 0]) and one metre ahead. *)
Definition pose_T (T : vec) : Gaussian :=
  mkGaussian 7 (T ++ identity_quaternion) (zero_mat 7 7).

Definition sensor0 (abs ufi : bool) (T : vec) (hw : hardware) : state :=
  setHardwareSensor hw
    (SensorAbsloc robot0 abs ufi (pose_T T) (zero_vec (1 + dataSize hw + varianceSize hw))).

(** A seven-channel sensor (position and orientation). *)
Definition raw7 : vec := [0; 5; 5; 5; 1; 0; 0; 0; 0.5; 0.5; 0.5; 0.5; 0.5; 0.5; 0.5]%float.
Definition hw7 : hardware := hw_of 7 7 [raw7].

(** The calibration window of three raws: values 10, 11, 100 with variances
    1, 1.5, 5 on the first axis. *)
Definition hw_calib : hardware :=
  hw_of 3 3 [ [0; 10; 20; 30; 1; 1; 1];
              [1; 11; 20; 30; 1.5; 1; 1];
              [2; 100; 20; 30; 5; 1; 1] ]%float.

(** A window whose only raw has variance 2000 on the first axis. *)
Definition hw_coarse : hardware := hw_of 3 3 [ [0; 10; 20; 30; 2000; 1; 1] ]%float.

(** No raw available. *)
Definition hw_empty : hardware := hw_of 3 3 [].

(** The driver of [hw_calib] when only its first two raws are listed. *)
Definition hw_calib_short : hardware :=
  mkHardware 3 3 (map mkRawInfo [0; 1]) (observeRaw hw_calib) (getRaw hw_calib).

(** A window whose second raw has no variance on the first axis, and the
    same window without that raw. *)
Definition hw_nan : hardware :=
  hw_of 3 3 [ [0; 10; 20; 30; 1; 1; 1]; [1; 50; 20; 30; nan; 1; 1] ]%float.
Definition hw_nan_free : hardware := hw_of 3 3 [ [0; 10; 20; 30; 1; 1; 1] ]%float.

(** The reading [process] works on: calibrated by [init] or taken with [getRaw]. *)
Definition acquired (hw : hardware) (i : nat) (s : state) : vec :=
  if use_for_init s then init_reading hw (inns s) i (reading s) else getRaw hw i.

(** The [getRaw] calls of one [process], before and after the model. *)
Definition trace_before (i : nat) (s : state) : list event :=
  if use_for_init s then [] else [EvGetRaw i].
Definition trace_after (i : nat) (s : state) : list event :=
  if use_for_init s then [EvGetRaw i] else [].

(** The sizes [setHardwareSensor] gives the members that [process] writes
    entry by entry. *)
Definition allocated (s : state) : Prop :=
  size (innovation s) = inns s /\
  length (x (measurement s)) = inns s /\
  shape (inns s) (inns s) (P (measurement s)) /\
  shape (inns s) ia_rs_size (EXP_rs s).

Definition diag_mat (d : vec) : mat :=
  mapi (fun i a => mapi (fun j _ => if i =? j then a else 0%float) d) d.

(** ** One axis of the calibration window, in the words of the specification

    A sample is a value with its variance.  [band_min_var] is the first pass
    (the running minimum starts at [1e3]), [band_sums] the second pass over
    the samples whose variance is below twice the minimum, [band_mean] the
    quotient of the two sums. *)
Definition sample : Type := (float * float)%type.

Definition axis_window (hw : hardware) (n i k : nat) : list sample :=
  map (fun it => let r := observeRaw hw (id it) in (vget r (k + 1), vget r (k + 1 + n)))
      (visited i (available hw)).

Definition band_min_var (w : list sample) : float :=
  fold_left (fun m s => if (snd s <? m)%float then snd s else m) w 1e3%float.

Definition band_sums (min_var : float) (w : list sample) : float * float :=
  fold_left (fun acc s => if (snd s <? 2 * min_var)%float
                          then (fst acc + fst s * snd s, snd acc + snd s)%float
                          else acc) w (0%float, 0%float).

Definition band_mean (w : list sample) : float :=
  let (sum, coeffs) := band_sums (band_min_var w) w in (sum / coeffs)%float.

(** Every raw the loops of [init] visit has [m] entries. *)
Definition raws_sized (hw : hardware) (i m : nat) : Prop :=
  Forall (fun it => length (observeRaw hw (id it)) = m) (visited i (available hw)).

(** ** Proof tools *)

(** A list of known length, as its entries. *)
Ltac explode H :=
  match type of H with
  | length ?l = 0 => destruct l; [clear H | discriminate H]
  | length ?l = S _ =>
      let a := fresh "a" in
      destruct l as [|a l]; [discriminate H | simpl in H; apply Nat.succ_inj in H; explode H]
  end.

(** Case analysis on the tests of a conditional, innermost first. *)
Ltac split_ifs :=
  repeat (match goal with
          | |- context [if ?c then _ else _] =>
              lazymatch c with
              | context [if _ then _ else _] => fail
              | _ => destruct c
              end
          end; cbn).

(** A state as its members. *)
Ltac open_state s :=
  destruct s as [Ers Jrs Eq [n ix iP] [mn mx mP] [en ex eP] hv ns abs ufi rd
                 [pn px pP] [o [rn rx rP]] tr];
  unfold origin_of, acquired, trace_before, trace_after in *; simpl in *.

(** Runs [process] on a state given by its members; the primitives on
    vectors and matrices and the collaborators are left alone. *)
Ltac run_process :=
  lazy -[vget vset mget mset subrange set_subrange msubrange set_msubrange zero_vec zero_mat
         identity_mat vadd vsub madd mopp sqr rotate rotate_by_dq prod_JPJt correct
         init_reading getRaw length Nat.eqb app];
  cbn [length Nat.eqb app].

(** The same in a hypothesis. *)
Ltac run_process_in H :=
  lazy -[vget vset mget mset subrange set_subrange msubrange set_msubrange zero_vec zero_mat
         identity_mat vadd vsub madd mopp sqr rotate rotate_by_dq prod_JPJt correct
         init_reading getRaw length Nat.eqb app] in H;
  cbn [length Nat.eqb app] in H.

(** [run_process], with the predicates on matrices left folded. *)
Ltac run_process_props :=
  lazy -[vget vset mget mset subrange set_subrange msubrange set_msubrange zero_vec zero_mat
         identity_mat vadd vsub madd mopp sqr rotate rotate_by_dq prod_JPJt correct
         init_reading getRaw length Nat.eqb app shape diagonal ia_rs_size];
  cbn [length Nat.eqb app].

(** A matrix of known shape, as its entries. *)
Ltac explode_rows H :=
  match type of H with
  | Forall _ [] => clear H
  | Forall _ (?r :: ?m) =>
      let Hr := fresh "Hr" in
      let Hm := fresh "Hm" in
      apply Forall_cons_iff in H; destruct H as [Hr Hm]; explode Hr; explode_rows Hm
  end.
Ltac explode_shape H :=
  let Hlen := fresh "Hlen" in
  let Hrows := fresh "Hrows" in
  destruct H as [Hlen Hrows]; explode Hlen; explode_rows Hrows.

(** Comparison of two floats given by their constructors. *)
Ltac sf_cases :=
  repeat match goal with
         | s : bool |- _ => destruct s
         end;
  cbn; try reflexivity; try discriminate; try (intros; discriminate).
Ltac sf_order :=
  repeat match goal with
         | |- context [Z.compare ?a ?b] => destruct (Z.compare_spec a b); subst
         | |- context [Pos.compare_cont Eq ?a ?b] =>
             change (Pos.compare_cont Eq a b) with (Pos.compare a b);
             destruct (Pos.compare_spec a b); subst
         end;
  cbn; intros; try reflexivity; try discriminate; try lia.

(** ** Lists, vectors and matrices *)

Lemma length_mapi_from {A B : Type} (f : nat -> A -> B) (l : list A) :
  forall k, length (mapi_from f k l) = length l.
Proof.
  induction l as [|a l IH]; intro k; simpl; [reflexivity|].
  now rewrite IH.
Qed.

Lemma length_mapi {A B : Type} (f : nat -> A -> B) (l : list A) :
  length (mapi f l) = length l.
Proof. apply length_mapi_from. Qed.

Lemma nth_mapi_from {A B : Type} (f : nat -> A -> B) (da : A) (db : B) (l : list A) :
  forall k n, n < length l -> nth n (mapi_from f k l) db = f (k + n) (nth n l da).
Proof.
  induction l as [|a l IH]; intros k n Hn; simpl in Hn; [lia|].
  destruct n as [|n]; simpl.
  - now rewrite Nat.add_0_r.
  - rewrite IH by lia. f_equal. lia.
Qed.

Lemma nth_mapi_same {A : Type} (f : nat -> A -> A) (d : A) (l : list A) (n : nat) :
  nth n (mapi f l) d = if n <? length l then f n (nth n l d) else d.
Proof.
  unfold mapi. destruct (Nat.ltb_spec n (length l)) as [Hn|Hn].
  - now rewrite (nth_mapi_from f d d l 0 n Hn).
  - apply nth_overflow. now rewrite length_mapi_from.
Qed.

Lemma vget_vset (i k : nat) (a : float) (v : vec) :
  vget (vset i a v) k = if (k =? i) && (k <? length v) then a else vget v k.
Proof.
  unfold vget, vset. rewrite nth_mapi_same.
  destruct (Nat.ltb_spec k (length v)) as [Hk|Hk].
  - now rewrite andb_true_r.
  - rewrite andb_false_r. now rewrite nth_overflow.
Qed.

Lemma length_vset (i : nat) (a : float) (v : vec) : length (vset i a v) = length v.
Proof. apply length_mapi. Qed.

Lemma length_set_subrange (lo hi : nat) (w v : vec) :
  length (set_subrange lo hi w v) = length v.
Proof. apply length_mapi. Qed.

Lemma vget_set_subrange_out (lo hi k : nat) (w v : vec) :
  in_range lo hi k = false -> vget (set_subrange lo hi w v) k = vget v k.
Proof.
  intro Hout. unfold vget, set_subrange. rewrite nth_mapi_same.
  rewrite Hout. destruct (Nat.ltb_spec k (length v)); [reflexivity|].
  now rewrite nth_overflow.
Qed.

Lemma length_set_msubrange (r0 r1 c0 c1 : nat) (b m : mat) :
  length (set_msubrange r0 r1 c0 c1 b m) = length m.
Proof. apply length_mapi. Qed.

Lemma nth_set_msubrange (r0 r1 c0 c1 k : nat) (b m : mat) :
  nth k (set_msubrange r0 r1 c0 c1 b m) [] =
  if in_range r0 r1 k && (k <? length m)
  then set_subrange c0 c1 (nth (k - r0) b []) (nth k m [])
  else nth k m [].
Proof.
  unfold set_msubrange. rewrite nth_mapi_same.
  destruct (Nat.ltb_spec k (length m)) as [Hk|Hk].
  - now rewrite andb_true_r.
  - rewrite andb_false_r. now rewrite nth_overflow.
Qed.

Lemma mget_set_msubrange_out (r0 r1 c0 c1 i j : nat) (b m : mat) :
  in_range r0 r1 i && in_range c0 c1 j = false ->
  mget (set_msubrange r0 r1 c0 c1 b m) i j = mget m i j.
Proof.
  intro Hout. unfold mget. rewrite nth_set_msubrange.
  destruct (in_range r0 r1 i && (i <? length m)) eqn:Hi; [|reflexivity].
  apply andb_prop in Hi. destruct Hi as [Hi _]. rewrite Hi in Hout. simpl in Hout.
  now apply vget_set_subrange_out.
Qed.

Lemma length_zipWith {A B C : Type} (f : A -> B -> C) (l : list A) :
  forall r, length (zipWith f l r) = Nat.min (length l) (length r).
Proof.
  induction l as [|a l IH]; intros [|b r]; simpl; auto.
Qed.

Lemma float_neq (a b : float) : PrimFloat.eqb a b = false -> PrimFloat.eqb a a = true -> a <> b.
Proof.
  intros Hab Haa Heq. rewrite <- Heq in Hab. rewrite Hab in Haa. discriminate.
Qed.

Lemma shape_rows (c : nat) (m : mat) :
  shape 3 c m ->
  exists r0 r1 r2, m = [r0; r1; r2] /\ length r0 = c /\ length r1 = c /\ length r2 = c.
Proof.
  intros [Hlen Hrows]. explode Hlen.
  inversion Hrows as [|? ? H0 Hrows1]; subst.
  inversion Hrows1 as [|? ? H1 Hrows2]; subst.
  inversion Hrows2 as [|? ? H2 _]; subst.
  eauto 10.
Qed.

Lemma diag_mat_diagonal (a b c : float) : diagonal (diag_mat [a; b; c]).
Proof.
  intros i j Hij. unfold mget, vget.
  destruct i as [|[|[|i]]]; destruct j as [|[|[|j]]]; try reflexivity; try lia;
    cbn;
    repeat match goal with
           | |- context [match ?k with 0 => _ | S _ => _ end] => destruct k
           end; reflexivity.
Qed.

(** The quaternion tools of the instance return a 3-vector and a 3x4 matrix. *)
#[export] Instance quat_externals_sized : ExternalsSized quat_externals.
Proof.
  split; intros q v.
  - reflexivity.
  - split; [reflexivity | repeat constructor].
Qed.

(** ** [init], axis by axis *)

Lemma min_var_body_axis (hw : hardware) (n k : nat) (acc : vec * vec) (it : RawInfo) :
  k < 3 -> length (snd acc) = 3 ->
  let r := observeRaw hw (id it) in
  let acc' := min_var_body hw n acc it in
  fst acc' = r /\ length (snd acc') = 3 /\
  vget (snd acc') k =
    (if (vget r (k + 1 + n) <? vget (snd acc) k)%float
     then vget r (k + 1 + n) else vget (snd acc) k).
Proof.
  intros Hk Hlen. destruct acc as [r0 mv]. simpl in Hlen. explode Hlen.
  unfold min_var_body, for3. cbv beta iota delta [fst snd].
  generalize (observeRaw hw (id it)). intro r. cbv zeta.
  assert (Hk3 : k = 0 \/ k = 1 \/ k = 2) by lia.
  destruct Hk3 as [-> | [-> | ->]];
    generalize (vget r (0 + 1 + n)), (vget r (1 + 1 + n)), (vget r (2 + 1 + n));
    intros v1 v2 v3; cbn; split_ifs; cbn; auto.
Qed.

Lemma fold_min_var_axis (hw : hardware) (n k : nat) (infos : list RawInfo) :
  k < 3 -> forall acc : vec * vec, length (snd acc) = 3 ->
  let acc' := fold_left (min_var_body hw n) infos acc in
  length (snd acc') = 3 /\
  vget (snd acc') k =
    fold_left (fun m s => if (snd s <? m)%float then snd s else m)
              (map (fun it => let r := observeRaw hw (id it) in
                              (vget r (k + 1), vget r (k + 1 + n))) infos)
              (vget (snd acc) k).
Proof.
  intro Hk. induction infos as [|it infos IH]; intros acc Hlen; cbn [fold_left map].
  - auto.
  - pose proof (min_var_body_axis hw n k acc it Hk Hlen) as H. cbv zeta in H.
    destruct H as (_ & Hlen' & Hget).
    pose proof (IH _ Hlen') as H. cbv zeta in H. destruct H as (IH1 & IH2).
    split; [exact IH1|]. rewrite IH2, Hget. reflexivity.
Qed.

Lemma average_body_axis (hw : hardware) (n k : nat) (min_var : vec)
      (acc : vec * (vec * vec)) (it : RawInfo) :
  k < 3 -> length (fst (snd acc)) = 3 -> length (snd (snd acc)) = 3 ->
  let r := observeRaw hw (id it) in
  let acc' := average_body hw n min_var acc it in
  length (fst (snd acc')) = 3 /\ length (snd (snd acc')) = 3 /\
  (vget (fst (snd acc')) k, vget (snd (snd acc')) k) =
    (if (vget r (k + 1 + n) <? 2 * vget min_var k)%float
     then (vget (fst (snd acc)) k + vget r (k + 1) * vget r (k + 1 + n),
           vget (snd (snd acc)) k + vget r (k + 1 + n))%float
     else (vget (fst (snd acc)) k, vget (snd (snd acc)) k)).
Proof.
  intros Hk Ha Hc. destruct acc as [r0 [av sc]]. simpl in Ha, Hc. explode Ha. explode Hc.
  unfold average_body, for3. cbv beta iota delta [fst snd].
  generalize (observeRaw hw (id it)). intro r. cbv zeta.
  assert (Hk3 : k = 0 \/ k = 1 \/ k = 2) by lia.
  destruct Hk3 as [-> | [-> | ->]];
    generalize (vget r (0 + 1 + n)), (vget r (1 + 1 + n)), (vget r (2 + 1 + n)),
               (vget r (0 + 1)), (vget r (1 + 1)), (vget r (2 + 1)),
               (vget min_var 0), (vget min_var 1), (vget min_var 2);
    intros; cbn; split_ifs; cbn; auto.
Qed.

Lemma fold_average_axis (hw : hardware) (n k : nat) (min_var : vec) (infos : list RawInfo) :
  k < 3 -> forall acc : vec * (vec * vec),
  length (fst (snd acc)) = 3 -> length (snd (snd acc)) = 3 ->
  let acc' := fold_left (average_body hw n min_var) infos acc in
  length (fst (snd acc')) = 3 /\ length (snd (snd acc')) = 3 /\
  (vget (fst (snd acc')) k, vget (snd (snd acc')) k) =
    fold_left (fun a s => if (snd s <? 2 * vget min_var k)%float
                          then (fst a + fst s * snd s, snd a + snd s)%float
                          else a)
              (map (fun it => let r := observeRaw hw (id it) in
                              (vget r (k + 1), vget r (k + 1 + n))) infos)
              (vget (fst (snd acc)) k, vget (snd (snd acc)) k).
Proof.
  intro Hk. induction infos as [|it infos IH]; intros acc Ha Hc; cbn [fold_left map].
  - auto.
  - pose proof (average_body_axis hw n k min_var acc it Hk Ha Hc) as H. cbv zeta in H.
    destruct H as (Ha' & Hc' & Hget).
    pose proof (IH _ Ha' Hc') as H. cbv zeta in H. destruct H as (IH1 & IH2 & IH3).
    split; [exact IH1|]. split; [exact IH2|].
    cbv zeta. rewrite IH3, Hget. reflexivity.
Qed.

(** The raw that a loop leaves in [reading]. *)
Lemma fold_min_var_reading (hw : hardware) (n : nat) (Q : vec -> Prop) (infos : list RawInfo) :
  Forall (fun it => Q (observeRaw hw (id it))) infos ->
  forall acc : vec * vec, Q (fst acc) -> Q (fst (fold_left (min_var_body hw n) infos acc)).
Proof.
  induction 1 as [|it infos Hit _ IH]; intros acc Hacc; cbn [fold_left].
  - exact Hacc.
  - apply IH. exact Hit.
Qed.

Lemma fold_average_reading (hw : hardware) (n : nat) (mv : vec) (Q : vec -> Prop)
      (infos : list RawInfo) :
  Forall (fun it => Q (observeRaw hw (id it))) infos ->
  forall acc : vec * (vec * vec),
    Q (fst acc) -> Q (fst (fold_left (average_body hw n mv) infos acc)).
Proof.
  induction 1 as [|it infos Hit _ IH]; intros acc Hacc; cbn [fold_left].
  - exact Hacc.
  - apply IH. exact Hit.
Qed.

(** [init] works axis by axis: on axis [k] the locals hold what the two
    passes and the division make of the samples of that axis alone. *)
Lemma init_locals_axis (hw : hardware) (n i k : nat) (rd : vec) :
  k < 3 ->
  let w := axis_window hw n i k in
  vget (snd (fst (init_locals hw n i rd))) k = band_min_var w /\
  vget (snd (init_locals hw n i rd)) k = band_mean w /\
  length (snd (fst (init_locals hw n i rd))) = 3 /\
  length (snd (init_locals hw n i rd)) = 3.
Proof.
  intros Hk w. unfold init_locals.
  pose proof (fold_min_var_axis hw n k (visited i (available hw)) Hk
                (rd, repeat 1e3%float 3) eq_refl) as H1.
  cbv zeta in H1. destruct H1 as (Hlen & Hmin).
  destruct (fold_left (min_var_body hw n) (visited i (available hw))
              (rd, repeat 1e3%float 3)) as [r1 mv].
  cbn [fst snd] in Hlen, Hmin.
  pose proof (fold_average_axis hw n k mv (visited i (available hw)) Hk
                (r1, (zero_vec 3, zero_vec 3)) eq_refl eq_refl) as H2.
  cbv zeta in H2. destruct H2 as (Ha & Hc & Hsum).
  destruct (fold_left (average_body hw n mv) (visited i (available hw))
              (r1, (zero_vec 3, zero_vec 3))) as [r2 [av sc]].
  cbn [fst snd] in Ha, Hc, Hsum |- *.
  assert (Hmin' : vget mv k = band_min_var w).
  { rewrite Hmin. destruct k as [|[|[|k]]]; try lia; reflexivity. }
  split; [exact Hmin'|].
  assert (Hdiv : vget (for3 (fun i0 average =>
                               vset i0 (vget average i0 / vget sc i0)%float average) av) k
                 = (vget av k / vget sc k)%float).
  { explode Ha. explode Hc.
    destruct k as [|[|[|k]]]; try lia; reflexivity. }
  split; [|split; [exact Hlen|]].
  - rewrite Hdiv. unfold band_mean, band_sums. fold w. rewrite <- Hmin'.
    assert (Hs : fold_left
                   (fun a s => if (snd s <? 2 * vget mv k)%float
                               then (fst a + fst s * snd s, snd a + snd s)%float else a)
                   w (0%float, 0%float) = (vget av k, vget sc k)).
    { rewrite Hsum. destruct k as [|[|[|k]]]; try lia; reflexivity. }
    rewrite Hs. reflexivity.
  - unfold for3. rewrite !length_vset. exact Ha.
Qed.

(** The reading [init] leaves when the sensor has three channels and the
    raws have their seven entries: the date, the means, then [min_var]. *)
Lemma init_reading_axis (hw : hardware) (i k : nat) (rd : vec) :
  k < 3 -> length rd = 7 -> raws_sized hw i 7 ->
  let w := axis_window hw 3 i k in
  vget (init_reading hw 3 i rd) (k + 1) = band_mean w /\
  vget (init_reading hw 3 i rd) (k + 1 + 3) = band_min_var w.
Proof.
  intros Hk Hrd Hraw w.
  assert (Hr : length (fst (fst (init_locals hw 3 i rd))) = 7).
  { unfold init_locals.
    pose proof (fold_min_var_reading hw 3 (fun v => length v = 7)
                  (visited i (available hw)) Hraw (rd, repeat 1e3%float 3) Hrd) as H1.
    destruct (fold_left (min_var_body hw 3) (visited i (available hw))
                (rd, repeat 1e3%float 3)) as [r1 mv].
    pose proof (fold_average_reading hw 3 mv (fun v => length v = 7)
                  (visited i (available hw)) Hraw (r1, (zero_vec 3, zero_vec 3)) H1) as H2.
    destruct (fold_left (average_body hw 3 mv) (visited i (available hw))
                (r1, (zero_vec 3, zero_vec 3))) as [r2 [av sc]].
    exact H2. }
  pose proof (init_locals_axis hw 3 i k rd Hk) as H. cbv zeta in H. fold w in H.
  destruct H as (Hmin & Hmean & Hlm & Hla).
  unfold init_reading.
  destruct (init_locals hw 3 i rd) as [[r mv] av]. cbn [fst snd] in *.
  rewrite <- Hmin, <- Hmean.
  explode Hr. explode Hlm. explode Hla.
  destruct k as [|[|[|k]]]; try lia; split; reflexivity.
Qed.

(** When no sample of the axis is in the band, both sums stay at zero. *)
Lemma band_sums_none (m : float) (w : list sample) :
  Forall (fun s => (snd s <? 2 * m)%float = false) w ->
  band_sums m w = (0%float, 0%float).
Proof.
  unfold band_sums. generalize (0%float, 0%float).
  induction 1 as [|s w Hs _ IH]; cbn [fold_left]; [reflexivity|].
  rewrite Hs. exact IH.
Qed.

(** ** The calibration estimator *)

(** C5: for a calibration window whose three samples have, on one axis, the
    values 10, 11, 100 and the variances 1, 1.5, 5, [init] finds the minimum
    variance 1, takes the first two samples only (variance below 2) and
    leaves the mean (10*1 + 11*1.5) / (1 + 1.5) = 10.6 with the variance 1
    in the reading. *)
Theorem calibration_three_samples (hw : hardware) (i k : nat) (rd : vec) :
  k < 3 -> length rd = 7 -> raws_sized hw i 7 ->
  axis_window hw 3 i k = [(10, 1); (11, 1.5); (100, 5)]%float ->
  let min_var := snd (fst (init_locals hw 3 i rd)) in
  vget min_var k = 1%float /\
  map (fun s => (snd s <? 2 * vget min_var k)%float) (axis_window hw 3 i k)
    = [true; true; false] /\
  vget (init_reading hw 3 i rd) (k + 1) = ((10 * 1 + 11 * 1.5) / (1 + 1.5))%float /\
  vget (init_reading hw 3 i rd) (k + 1) = 10.6%float /\
  vget (init_reading hw 3 i rd) (k + 1 + 3) = 1%float.
Proof.
  intros Hk Hrd Hraw Hw.
  pose proof (init_locals_axis hw 3 i k rd Hk) as H. cbv zeta in H.
  destruct H as (Hmin & _).
  pose proof (init_reading_axis hw i k rd Hk Hrd Hraw) as H. cbv zeta in H.
  destruct H as (Hmean & Hvar).
  cbv zeta. rewrite Hmin, Hmean, Hvar, Hw. repeat split; reflexivity.
Qed.

Lemma calibration_three_samples_witness :
  0 < 3 /\ length (zero_vec 7) = 7 /\ raws_sized hw_calib 2 7 /\
  axis_window hw_calib 3 2 0 = [(10, 1); (11, 1.5); (100, 5)]%float /\
  vget (init_reading hw_calib 3 2 (zero_vec 7)) 1 = 10.6%float /\
  vget (init_reading hw_calib 3 2 (zero_vec 7)) 4 = 1%float.
Proof.
  assert (Hk : 0 < 3) by lia.
  assert (Hrd : length (zero_vec 7) = 7) by reflexivity.
  assert (Hraw : raws_sized hw_calib 2 7) by (repeat constructor).
  assert (Hw : axis_window hw_calib 3 2 0 = [(10, 1); (11, 1.5); (100, 5)]%float)
    by reflexivity.
  pose proof (calibration_three_samples hw_calib 2 0 (zero_vec 7) Hk Hrd Hraw Hw) as H.
  cbv zeta in H. destruct H as (_ & _ & _ & Hmean & Hvar).
  repeat split; assumption.
Defined.

(** C6: on a window whose only sample has the variance 2000 on the first
    axis, the first pass of [init] leaves [min_var(0)] at its initial 1e3,
    below every variance of the window; the variance written to the reading
    is that 1e3, and the sample being outside the band, the mean is 0/0. *)
Theorem coarse_window_min_var :
  axis_window hw_coarse 3 0 0 = [(10, 2000)]%float /\
  vget (snd (fst (init_locals hw_coarse 3 0 (zero_vec 7)))) 0 = 1000%float /\
  init_reading hw_coarse 3 0 (zero_vec 7) = [0; nan; 20; 30; 1000; 1; 1]%float.
Proof. repeat split; reflexivity. Qed.

(** C7, as the source has it: [init] has no failure.  On an axis where no
    sample of the window is in the band (an empty window is the first
    case) it returns normally, the value of the axis is 0/0, not a number,
    and its variance is [min_var], which is 1e3 for an empty window. *)
Theorem init_degenerate_axis (hw : hardware) (i k : nat) (s : state) :
  k < 3 -> inns s = 3 -> length (reading s) = 7 -> raws_sized hw i 7 ->
  let w := axis_window hw 3 i k in
  Forall (fun sm => (snd sm <? 2 * band_min_var w)%float = false) w ->
  snd (init hw i s) = Ok tt /\
  vget (reading (fst (init hw i s))) (k + 1) = nan /\
  vget (reading (fst (init hw i s))) (k + 1 + 3) = band_min_var w /\
  (w = [] -> band_min_var w = 1e3%float).
Proof.
  intros Hk Hn Hrd Hraw w Hout.
  pose proof (init_reading_axis hw i k (reading s) Hk Hrd Hraw) as H. cbv zeta in H.
  fold w in H. destruct H as (Hmean & Hvar).
  unfold init, modify. cbn [fst snd]. rewrite Hn.
  destruct s; cbn [reading set_reading] in *.
  rewrite Hmean, Hvar. unfold band_mean. rewrite (band_sums_none _ _ Hout).
  repeat split. intros ->. reflexivity.
Qed.

Lemma init_degenerate_axis_witness :
  let s := sensor0 false true (zero_vec 3) hw_coarse in
  0 < 3 /\ inns s = 3 /\ length (reading s) = 7 /\ raws_sized hw_coarse 0 7 /\
  Forall (fun sm => (snd sm <? 2 * band_min_var (axis_window hw_coarse 3 0 0))%float = false)
         (axis_window hw_coarse 3 0 0) /\
  snd (init hw_coarse 0 s) = Ok tt /\
  vget (reading (fst (init hw_coarse 0 s))) 1 = nan.
Proof.
  cbv zeta.
  assert (Hk : 0 < 3) by lia.
  assert (Hn : inns (sensor0 false true (zero_vec 3) hw_coarse) = 3) by reflexivity.
  assert (Hrd : length (reading (sensor0 false true (zero_vec 3) hw_coarse)) = 7)
    by reflexivity.
  assert (Hraw : raws_sized hw_coarse 0 7) by (repeat constructor).
  assert (Hout : Forall (fun sm => (snd sm <? 2 * band_min_var
                                      (axis_window hw_coarse 3 0 0))%float = false)
                        (axis_window hw_coarse 3 0 0)) by (repeat constructor).
  pose proof (init_degenerate_axis hw_coarse 0 0
                (sensor0 false true (zero_vec 3) hw_coarse) Hk Hn Hrd Hraw Hout) as H.
  cbv zeta in H. destruct H as (Hok & Hnan & _).
  repeat split; assumption.
Defined.

(** C7, as stated, fails on the empty window: [init] returns a reading and
    [process] goes on with it to its end. *)
Lemma empty_window_yields_reading :
  let s := sensor0 false true (zero_vec 3) hw_empty in
  visited 0 (available hw_empty) = [] /\
  init hw_empty 0 s = (set_reading [0; nan; nan; nan; 1000; 1000; 1000]%float s, Ok tt) /\
  snd (process hw_empty 0 s) = Ok tt.
Proof. repeat split; reflexivity. Qed.

(** ** [setHardwareSensor] *)

Lemma shape_zero_mat (r c : nat) : shape r c (zero_mat r c).
Proof.
  unfold shape, zero_mat. split.
  - apply repeat_length.
  - apply Forall_forall. intros row Hin. apply repeat_spec in Hin. subst row.
    apply repeat_length.
Qed.

Lemma setHardwareSensor_allocated (hw : hardware) (s : state) :
  allocated (setHardwareSensor hw s).
Proof.
  unfold setHardwareSensor, allocated.
  destruct (varianceSize hw =? dataSize hw); cbn -[zero_mat zero_vec shape];
    (split; [reflexivity | split; [apply repeat_length | split; apply shape_zero_mat]]).
Qed.

(** ** The measurement model *)

(** C4: with three channels, [process] leaves in [expectation] the mean
    [p + rotate(q, T)], in [EXP_rs] the identity for the position and the
    Jacobian of [rotate(q, T)] in [q] for the quaternion, and as covariance
    [prod_JPJt] of the covariance of the robot pose and [EXP_rs]; [p] and [q]
    are the position and the quaternion of the robot, [T] the position of the
    sensor, all three as [process] finds them. *)
Theorem measurement_model `{E : Externals} {ES : ExternalsSized E}
        (hw : hardware) (i : nat) (s : state) :
  size (innovation s) = 3 -> shape 3 ia_rs_size (EXP_rs s) ->
  let T := subrange (x (pose s)) 0 3 in
  let p := subrange (x (Robot.pose (robot s))) 0 3 in
  let q := subrange (x (Robot.pose (robot s))) 3 7 in
  let s' := fst (process hw i s) in
  x (expectation s') = vadd p (rotate q T) /\
  msubrange (EXP_rs s') 0 3 0 3 = identity_mat 3 /\
  msubrange (EXP_rs s') 0 3 3 7 = rotate_by_dq q T /\
  P (expectation s') = prod_JPJt (P (Robot.pose (robot s))) (EXP_rs s').
Proof.
  intros Hn Hshape.
  destruct (shape_rows _ _ Hshape) as (r0 & r1 & r2 & HE & H0 & H1 & H2).
  open_state s. subst n Ers. unfold ia_rs_size in *.
  explode H0. explode H1. explode H2.
  destruct ufi, hv, abs, o; run_process;
    match goal with
    | |- context [rotate_by_dq ?q ?T] =>
        let HJ := fresh "HJ" in
        pose proof (rotate_by_dq_shape q T) as HJ; revert HJ;
        generalize (rotate_by_dq q T); intros J HJ;
        destruct (shape_rows _ _ HJ) as (j0 & j1 & j2 & -> & Hj0 & Hj1 & Hj2);
        explode Hj0; explode Hj1; explode Hj2
    end; auto.
Qed.

Lemma measurement_model_witness :
  let s := sensor0 false false [1; 0; 0]%float hw555 in
  let s' := fst (process hw555 0 s) in
  size (innovation s) = 3 /\ shape 3 ia_rs_size (EXP_rs s) /\
  x (expectation s') = [1; 0; 0]%float /\
  msubrange (EXP_rs s') 0 3 0 3 = identity_mat 3 /\
  msubrange (EXP_rs s') 0 3 3 7 = [[2; 0; -0; -0]; [0; 0; 0; 2]; [-0; 0; -2; 0]]%float.
Proof.
  cbv zeta.
  assert (Hn : size (innovation (sensor0 false false [1; 0; 0]%float hw555)) = 3)
    by reflexivity.
  assert (Hs : shape 3 ia_rs_size (EXP_rs (sensor0 false false [1; 0; 0]%float hw555)))
    by (split; [reflexivity | repeat constructor]).
  pose proof (measurement_model hw555 0 (sensor0 false false [1; 0; 0]%float hw555) Hn Hs)
    as H.
  cbv zeta in H. destruct H as (Hx & HI & HJ & _).
  split; [exact Hn|]. split; [exact Hs|].
  split; [rewrite Hx; vm_compute; reflexivity|].
  split; [exact HI|].
  rewrite HJ. vm_compute. reflexivity.
Defined.

(** C8: with three channels and variances in the raw, the covariance of
    [measurement] after [process] is the diagonal matrix of the squares of
    the three deviations that follow the values in the reading, in the order
    (2, 1, 3) of the mean; the entries off the diagonal are the zeros the
    matrix was built with, which [process] never writes. *)
Theorem measurement_cov_diagonal `{E : Externals} (hw : hardware) (i : nat) (s : state) :
  size (innovation s) = 3 -> hasVar s = true ->
  shape 3 3 (P (measurement s)) -> diagonal (P (measurement s)) ->
  let r := acquired hw i s in
  let s' := fst (process hw i s) in
  P (measurement s') =
    diag_mat [sqr (vget r (2 + inns s)); sqr (vget r (1 + inns s)); sqr (vget r (3 + inns s))] /\
  diagonal (P (measurement s')).
Proof.
  intros Hn Hv Hshape Hdiag.
  destruct (shape_rows _ _ Hshape) as (r0 & r1 & r2 & HP & H0 & H1 & H2).
  open_state s. subst n hv mP.
  explode H0. explode H1. explode H2.
  pose proof (Hdiag 0 1 ltac:(lia)) as D01. pose proof (Hdiag 0 2 ltac:(lia)) as D02.
  pose proof (Hdiag 1 0 ltac:(lia)) as D10. pose proof (Hdiag 1 2 ltac:(lia)) as D12.
  pose proof (Hdiag 2 0 ltac:(lia)) as D20. pose proof (Hdiag 2 1 ltac:(lia)) as D21.
  cbn in D01, D02, D10, D12, D20, D21. subst.
  destruct ufi, abs, o; run_process;
    match goal with
    | |- ?L = ?R /\ _ =>
        let HL := fresh "HL" in
        assert (HL : L = R) by reflexivity;
        rewrite HL; split; [reflexivity | apply diag_mat_diagonal]
    end.
Qed.

Lemma measurement_cov_diagonal_witness :
  let s := sensor0 false false (zero_vec 3) hw555 in
  size (innovation s) = 3 /\ hasVar s = true /\
  shape 3 3 (P (measurement s)) /\ diagonal (P (measurement s)) /\
  P (measurement (fst (process hw555 0 s))) = diag_mat [0.25; 0.25; 0.25]%float /\
  diagonal (P (measurement (fst (process hw555 0 s)))).
Proof.
  cbv zeta.
  assert (Hn : size (innovation (sensor0 false false (zero_vec 3) hw555)) = 3) by reflexivity.
  assert (Hv : hasVar (sensor0 false false (zero_vec 3) hw555) = true) by reflexivity.
  assert (Hs : shape 3 3 (P (measurement (sensor0 false false (zero_vec 3) hw555))))
    by (split; [reflexivity | repeat constructor]).
  assert (Hd : diagonal (P (measurement (sensor0 false false (zero_vec 3) hw555))))
    by exact (diag_mat_diagonal 0 0 0).
  pose proof (measurement_cov_diagonal hw555 0 (sensor0 false false (zero_vec 3) hw555)
                Hn Hv Hs Hd) as H.
  cbv zeta in H. destruct H as (HP & HD).
  split; [exact Hn|]. split; [exact Hv|]. split; [exact Hs|]. split; [exact Hd|].
  split; [rewrite HP; vm_compute; reflexivity | exact HD].
Defined.

(** ** The first reading *)

(** C1, as the source has it: on the first reading of a sensor that is not
    absolute, with three channels and variances, [measurement] takes the
    values of the reading in the order (2, 1, 3), less an origin of zero;
    [origin] becomes that mean less the rotated position [rotate(q, T)] of
    the sensor, and the position of the robot becomes the zero vector, its
    quaternion being left as it was. *)
Theorem bootstrap_relative `{E : Externals} (hw : hardware) (i : nat) (s : state) :
  origin_of s = [] -> absolute s = false ->
  size (innovation s) = 3 -> hasVar s = true ->
  length (x (measurement s)) = 3 -> length (x (Robot.pose (robot s))) = 7 ->
  let r := acquired hw i s in
  let Tr := rotate (subrange (x (Robot.pose (robot s))) 3 7) (subrange (x (pose s)) 0 3) in
  let s' := fst (process hw i s) in
  snd (process hw i s) = Ok tt /\
  x (measurement s') = [vget r 2 - 0; vget r 1 - 0; vget r 3 - 0]%float /\
  origin_of s' = vsub (x (measurement s')) Tr /\
  subrange (x (Robot.pose (robot s'))) 0 3 = zero_vec 3 /\
  subrange (x (Robot.pose (robot s'))) 3 7 = subrange (x (Robot.pose (robot s))) 3 7.
Proof.
  intros Ho Ha Hn Hv Hm Hx. open_state s. subst o abs n hv.
  explode Hm. explode Hx.
  destruct ufi; run_process; auto 10.
Qed.

(** The scenario of the specification: reading (5, 5, 5), sensor at the
    reference point of the robot, identity quaternion. *)
Lemma bootstrap_relative_witness :
  let s := sensor0 false false (zero_vec 3) hw555 in
  let s' := fst (process hw555 0 s) in
  origin_of s = [] /\ absolute s = false /\
  size (innovation s) = 3 /\ hasVar s = true /\
  length (x (measurement s)) = 3 /\ length (x (Robot.pose (robot s))) = 7 /\
  origin_of s' = [5; 5; 5]%float /\
  subrange (x (Robot.pose (robot s'))) 0 3 = [0; 0; 0]%float.
Proof.
  cbv zeta.
  pose proof (bootstrap_relative hw555 0 (sensor0 false false (zero_vec 3) hw555)
                eq_refl eq_refl eq_refl eq_refl eq_refl eq_refl) as H.
  cbv zeta in H. destruct H as (_ & Hm & Ho & Hp & _).
  do 6 (split; [reflexivity|]).
  split; [rewrite Ho, Hm; vm_compute; reflexivity | exact Hp].
Defined.

(** C1, as stated, fails when the sensor is away from the reference point of
    the robot: with the sensor one metre ahead, the reading (5, 5, 5) gives
    the origin (4, 5, 5), which is not the mean of the measurement. *)
Lemma bootstrap_relative_lever_arm :
  let s := sensor0 false false [1; 0; 0]%float hw555 in
  let s' := fst (process hw555 0 s) in
  origin_of s = [] /\ absolute s = false /\
  x (measurement s') = [5; 5; 5]%float /\
  origin_of s' = [4; 5; 5]%float /\
  origin_of s' <> x (measurement s').
Proof.
  cbv zeta.
  assert (Hm : x (measurement (fst (process hw555 0
                 (sensor0 false false [1; 0; 0]%float hw555)))) = [5; 5; 5]%float)
    by (vm_compute; reflexivity).
  assert (Ho : origin_of (fst (process hw555 0
                 (sensor0 false false [1; 0; 0]%float hw555))) = [4; 5; 5]%float)
    by (vm_compute; reflexivity).
  do 2 (split; [reflexivity|]). split; [exact Hm|]. split; [exact Ho|].
  rewrite Ho, Hm. intro Heq.
  apply (f_equal (fun v => vget v 0)) in Heq. cbn in Heq.
  revert Heq. apply float_neq; reflexivity.
Qed.

(** C10: on a first reading, whatever the policy and the outcome, [process]
    leaves the size of the robot pose, the entries 3 and above of its state
    and every entry of its covariance outside the rows and columns 0 to 2 as
    they were. *)
Theorem bootstrap_frame `{E : Externals} (hw : hardware) (i : nat) (s : state) :
  origin_of s = [] ->
  let p := Robot.pose (robot s) in
  let p' := Robot.pose (robot (fst (process hw i s))) in
  size p' = size p /\ length (x p') = length (x p) /\ length (P p') = length (P p) /\
  (forall k, 3 <= k -> vget (x p') k = vget (x p) k) /\
  (forall r c, 3 <= r \/ 3 <= c -> mget (P p') r c = mget (P p) r c).
Proof.
  intro Ho. open_state s. subst o.
  assert (Hx : forall w k, 3 <= k -> vget (set_subrange 0 3 w rx) k = vget rx k).
  { intros w k Hk. apply vget_set_subrange_out. unfold in_range.
    destruct (Nat.ltb_spec k 3); [lia|]. now rewrite andb_false_r. }
  assert (HP : forall b r c, 3 <= r \/ 3 <= c ->
                 mget (set_msubrange 0 3 0 3 b rP) r c = mget rP r c).
  { intros b r c Hrc. apply mget_set_msubrange_out. unfold in_range.
    destruct (Nat.ltb_spec r 3), (Nat.ltb_spec c 3); try lia;
      rewrite ?andb_false_r, ?andb_true_r; reflexivity. }
  destruct ufi, hv, abs, n as [|[|[|[|n]]]]; run_process;
    rewrite ?length_set_subrange, ?length_set_msubrange; auto 10.
Qed.

Lemma bootstrap_frame_witness :
  let s := sensor0 true false [1; 0; 0]%float hw555 in
  let p := Robot.pose (robot s) in
  let p' := Robot.pose (robot (fst (process hw555 0 s))) in
  origin_of s = [] /\
  subrange (x p') 0 3 = [4; 5; 5]%float /\
  (forall k, 3 <= k -> vget (x p') k = vget (x p) k) /\
  (forall r c, 3 <= r \/ 3 <= c -> mget (P p') r c = mget (P p) r c).
Proof.
  cbv zeta.
  pose proof (bootstrap_frame hw555 0 (sensor0 true false [1; 0; 0]%float hw555) eq_refl)
    as H.
  cbv zeta in H. destruct H as (_ & _ & _ & Hx & HP).
  split; [reflexivity|]. split; [vm_compute; reflexivity|].
  split; [exact Hx | exact HP].
Defined.

(** ** Readings of an unsupported size *)

(** With any number of channels but three, [process] throws from the
    [default] case and leaves the robot pose alone; the origin is left alone
    only if it was set, since the test on its size comes first. *)
Lemma process_unsupported `{E : Externals} (hw : hardware) (i : nat) (s : state) :
  size (innovation s) <> 3 ->
  snd (process hw i s) = Throw (ReadingSizeNotSupported (length (acquired hw i s))) /\
  robot (fst (process hw i s)) =
    (if length (origin_of s) =? 0 then Robot.set_origin (zero_vec 3) (robot s) else robot s).
Proof.
  intro Hn. open_state s.
  destruct n as [|[|[|[|n]]]]; try (exfalso; apply Hn; reflexivity);
    destruct ufi, o; run_process; auto.
Qed.

(** C2: the first reading of a sensor with seven channels.  [process] throws
    "reading size not supported" and the robot pose is untouched, but the
    origin, which had no component, is now the zero vector of size 3. *)
Theorem unsupported_first_reading :
  let s := sensor0 false false (zero_vec 3) hw7 in
  size (innovation s) = 7 /\ origin_of s = [] /\
  snd (process hw7 0 s) = Throw (ReadingSizeNotSupported 15) /\
  Robot.pose (robot (fst (process hw7 0 s))) = Robot.pose (robot s) /\
  origin_of (fst (process hw7 0 s)) = [0; 0; 0]%float.
Proof. cbv zeta. repeat split; vm_compute; reflexivity. Qed.

(** ** The origin along a run *)

Lemma process_keeps_origin `{E : Externals} (hw : hardware) (i : nat) (s : state) :
  origin_of s <> [] -> origin_of (fst (process hw i s)) = origin_of s.
Proof.
  intro Ho. open_state s. destruct o as [|o0 o]; [contradiction|].
  destruct ufi, hv, n as [|[|[|[|n]]]]; run_process; reflexivity.
Qed.

Lemma run_keeps_origin `{E : Externals} (calls : list (hardware * nat)) :
  forall s, origin_of s <> [] -> origin_of (run calls s) = origin_of s.
Proof.
  induction calls as [|[hw i] calls IH]; intros s Ho; cbn [run]; [reflexivity|].
  rewrite IH; rewrite process_keeps_origin; auto.
Qed.

Lemma first_process_sets_origin `{E : Externals} {ES : ExternalsSized E}
      (hw : hardware) (i : nat) (s : state) :
  origin_of s = [] -> allocated s -> length (origin_of (fst (process hw i s))) = 3.
Proof.
  intros Ho (Hsz & Hmx & _ & _). open_state s. subst o n.
  destruct ufi, hv, abs, ns as [|[|[|[|ns]]]]; run_process; try reflexivity;
    unfold vsub; rewrite length_zipWith, rotate_size, !length_vset, Hmx; reflexivity.
Qed.

(** C3: on a sensor as [setHardwareSensor] leaves it and a robot without
    origin, the first call of [process] gives the origin its three
    components, and whatever calls follow, with whatever readings and
    whether they throw or not, the origin stays what the first call made it. *)
Theorem origin_set_exactly_once `{E : Externals} {ES : ExternalsSized E}
        (s : state) (call : hardware * nat) (calls : list (hardware * nat)) :
  allocated s -> origin_of s = [] ->
  let s1 := run [call] s in
  length (origin_of s1) = 3 /\
  origin_of (run calls s1) = origin_of s1.
Proof.
  intros Hs Ho. destruct call as [hw i]. cbv zeta. cbn [run].
  assert (H3 : length (origin_of (fst (process hw i s))) = 3)
    by (apply first_process_sets_origin; assumption).
  split; [exact H3|].
  apply run_keeps_origin. intro Hnil. rewrite Hnil in H3. discriminate H3.
Qed.

Lemma origin_set_exactly_once_witness :
  let s := sensor0 false false [1; 0; 0]%float hw555 in
  let s1 := run [(hw555, 0)] s in
  allocated s /\ origin_of s = [] /\
  origin_of s1 = [4; 5; 5]%float /\
  origin_of (run [(hw555, 0); (hw_calib, 1); (hw7, 0)] s1) = [4; 5; 5]%float.
Proof.
  cbv zeta.
  assert (Ha : allocated (sensor0 false false [1; 0; 0]%float hw555))
    by apply setHardwareSensor_allocated.
  pose proof (origin_set_exactly_once (sensor0 false false [1; 0; 0]%float hw555)
                (hw555, 0) [(hw555, 0); (hw_calib, 1); (hw7, 0)] Ha eq_refl) as H.
  cbv zeta in H. destruct H as (_ & Hkeep).
  assert (H1 : origin_of (run [(hw555, 0)] (sensor0 false false [1; 0; 0]%float hw555))
               = [4; 5; 5]%float) by (vm_compute; reflexivity).
  split; [exact Ha|]. split; [reflexivity|]. split; [exact H1|].
  rewrite Hkeep. exact H1.
Defined.

(** ** The correction *)

(** C9: on a reading that is not the first, with three channels and
    variances, [process] ends normally and makes one call of the filter's
    [correct], with the innovation and with [INN_rs], which is the opposite
    of [EXP_rs], the Jacobian of the expectation, entry by entry. *)
Theorem correction_cross_jacobian `{E : Externals} (hw : hardware) (i : nat) (s : state) :
  origin_of s <> [] -> size (innovation s) = 3 -> hasVar s = true ->
  let s' := fst (process hw i s) in
  snd (process hw i s) = Ok tt /\
  INN_rs s' = mopp (EXP_rs s') /\
  trace s' = trace s ++ trace_before i s
                     ++ [EvCorrect (innovation s') (mopp (EXP_rs s'))]
                     ++ trace_after i s.
Proof.
  intros Ho Hn Hv. open_state s. subst n hv.
  destruct o as [|o0 o]; [contradiction|].
  destruct ufi; run_process; rewrite <- ?app_assoc; auto.
Qed.

Lemma correction_cross_jacobian_witness :
  let s := run [(hw555, 0)] (sensor0 false false [1; 0; 0]%float hw555) in
  let s' := fst (process hw555 0 s) in
  origin_of s <> [] /\ size (innovation s) = 3 /\ hasVar s = true /\
  snd (process hw555 0 s) = Ok tt /\
  INN_rs s' = mopp (EXP_rs s') /\
  trace s' = [EvGetRaw 0; EvGetRaw 0; EvCorrect (innovation s') (mopp (EXP_rs s'))].
Proof.
  cbv zeta.
  assert (Ho : origin_of (run [(hw555, 0)] (sensor0 false false [1; 0; 0]%float hw555))
               <> []).
  { assert (H1 : length (origin_of (run [(hw555, 0)]
                   (sensor0 false false [1; 0; 0]%float hw555))) = 3)
      by (vm_compute; reflexivity).
    intro Hnil. rewrite Hnil in H1. discriminate H1. }
  assert (Hn : size (innovation (run [(hw555, 0)]
                 (sensor0 false false [1; 0; 0]%float hw555))) = 3)
    by (vm_compute; reflexivity).
  assert (Hv : hasVar (run [(hw555, 0)] (sensor0 false false [1; 0; 0]%float hw555)) = true)
    by (vm_compute; reflexivity).
  pose proof (correction_cross_jacobian hw555 0
                (run [(hw555, 0)] (sensor0 false false [1; 0; 0]%float hw555)) Ho Hn Hv) as H.
  cbv zeta in H. destruct H as (Hok & HJ & Htr).
  split; [exact Ho|]. split; [exact Hn|]. split; [exact Hv|].
  split; [exact Hok|]. split; [exact HJ|].
  rewrite Htr. reflexivity.
Defined.

(** * Further properties of the sensor *)

(** ** Shapes and diagonals under assignment *)

Lemma Forall_mapi_from {A : Type} (Q : A -> Prop) (f : nat -> A -> A) (l : list A) :
  (forall k a, Q a -> Q (f k a)) -> forall k, Forall Q l -> Forall Q (mapi_from f k l).
Proof.
  intros Hf. induction l as [|a l IH]; intros k Hl; cbn [mapi_from]; [constructor|].
  inversion Hl; subst. constructor; auto.
Qed.

Lemma shape_mset (r c i j : nat) (a : float) (m : mat) :
  shape r c m -> shape r c (mset i j a m).
Proof.
  intros [Hlen Hrows]. split.
  - unfold mset. now rewrite length_mapi.
  - unfold mset, mapi. apply Forall_mapi_from; [|exact Hrows].
    intros k row Hrow. destruct (k =? i); [|exact Hrow]. now rewrite length_vset.
Qed.

Lemma shape_set_msubrange (r c r0 r1 c0 c1 : nat) (b m : mat) :
  shape r c m -> shape r c (set_msubrange r0 r1 c0 c1 b m).
Proof.
  intros [Hlen Hrows]. split.
  - now rewrite length_set_msubrange.
  - unfold set_msubrange, mapi. apply Forall_mapi_from; [|exact Hrows].
    intros k row Hrow. destruct (in_range r0 r1 k); [|exact Hrow].
    now rewrite length_set_subrange.
Qed.

Lemma mget_mset_other (i j r c : nat) (a : float) (m : mat) :
  r <> i \/ c <> j -> mget (mset i j a m) r c = mget m r c.
Proof.
  intro Hne. unfold mget, mset. rewrite nth_mapi_same.
  destruct (Nat.ltb_spec r (length m)) as [Hr|Hr].
  - destruct (Nat.eqb_spec r i) as [->|Hri]; [|reflexivity].
    rewrite vget_vset. destruct (Nat.eqb_spec c j) as [->|Hcj]; [|reflexivity].
    destruct Hne; congruence.
  - now rewrite nth_overflow.
Qed.

Lemma diagonal_mset (i : nat) (a : float) (m : mat) :
  diagonal m -> diagonal (mset i i a m).
Proof.
  intros Hd r c Hrc. rewrite mget_mset_other; [now apply Hd|].
  destruct (Nat.eq_dec r i); [right; congruence | left; assumption].
Qed.

Lemma nth_repeat_default {A : Type} (a d : A) (n : nat) :
  forall i, nth i (repeat a n) d = if i <? n then a else d.
Proof.
  induction n as [|n IH]; intros [|i]; cbn [repeat nth]; try reflexivity.
  rewrite IH. reflexivity.
Qed.

Lemma diagonal_zero_mat (n : nat) : diagonal (zero_mat n n).
Proof.
  intros i j _. unfold mget, vget, zero_mat, zero_vec.
  rewrite nth_repeat_default. destruct (i <? n).
  - rewrite nth_repeat_default. now destruct (j <? n).
  - now destruct j.
Qed.

(** ** The order of the floats *)

Lemma SFleb_trans (a b c : spec_float) :
  SFleb a b = true -> SFleb b c = true -> SFleb a c = true.
Proof.
  unfold SFleb, SFcompare.
  destruct a as [sa|sa| |sa ma ea], b as [sb|sb| |sb mb eb], c as [sc|sc| |sc mc ec];
    sf_cases; sf_order.
Qed.

Lemma SFltb_leb (a b : spec_float) : SFltb a b = true -> SFleb a b = true.
Proof.
  unfold SFltb, SFleb.
  destruct (SFcompare a b) as [[| |]|]; intro H; try discriminate H; reflexivity.
Qed.

Lemma SFltb_refl_l (a b : spec_float) : SFltb a b = true -> SFleb a a = true.
Proof.
  unfold SFltb, SFleb, SFcompare.
  destruct a as [sa|sa| |sa ma ea], b as [sb|sb| |sb mb eb]; sf_cases; sf_order.
Qed.

Lemma SFltb_false_leb (a b : spec_float) :
  SFltb a b = false -> SFleb a a = true -> SFleb b b = true -> SFleb b a = true.
Proof.
  unfold SFltb, SFleb, SFcompare.
  destruct a as [sa|sa| |sa ma ea], b as [sb|sb| |sb mb eb]; sf_cases; sf_order.
Qed.

Lemma leb_trans (a b c : float) :
  (a <=? b)%float = true -> (b <=? c)%float = true -> (a <=? c)%float = true.
Proof. rewrite !leb_spec. apply SFleb_trans. Qed.

Lemma ltb_leb (a b : float) : (a <? b)%float = true -> (a <=? b)%float = true.
Proof. rewrite ltb_spec, leb_spec. apply SFltb_leb. Qed.

Lemma ltb_refl_l (a b : float) : (a <? b)%float = true -> (a <=? a)%float = true.
Proof. rewrite ltb_spec, leb_spec. apply SFltb_refl_l. Qed.

Lemma ltb_false_leb (a b : float) :
  (a <? b)%float = false -> (a <=? a)%float = true -> (b <=? b)%float = true ->
  (b <=? a)%float = true.
Proof. rewrite ltb_spec, !leb_spec. apply SFltb_false_leb. Qed.

Lemma ltb_nan_l (b : float) : (nan <? b)%float = false.
Proof. rewrite ltb_spec. reflexivity. Qed.

(** ** What a call of [process] returns and what a failed call leaves *)




(** X3: whenever [process] ends normally, the innovation it leaves is the
    measurement less the expectation, with the sum of their covariances. *)
Theorem innovation_law `{E : Externals} (hw : hardware) (i : nat) (s : state) :
  size (innovation s) = 3 -> hasVar s = true ->
  let s' := fst (process hw i s) in
  x (innovation s') = vsub (x (measurement s')) (x (expectation s')) /\
  P (innovation s') = madd (P (measurement s')) (P (expectation s')) /\
  size (innovation s') = 3.
Proof.
  intros Hn Hv. open_state s. subst n hv.
  destruct ufi, abs, o; run_process; auto.
Qed.

Lemma innovation_law_witness :
  let s := sensor0 false false [1; 0; 0]%float hw555 in
  let s' := fst (process hw555 0 s) in
  size (innovation s) = 3 /\ hasVar s = true /\
  x (innovation s') = [4; 5; 5]%float /\
  P (innovation s') = madd (P (measurement s')) (P (expectation s')).
Proof.
  cbv zeta.
  pose proof (innovation_law hw555 0 (sensor0 false false [1; 0; 0]%float hw555)
                eq_refl eq_refl) as H.
  cbv zeta in H. destruct H as (Hx & HP & _).
  do 2 (split; [reflexivity|]).
  split; [rewrite Hx; vm_compute; reflexivity | exact HP].
Defined.

(** ** The first reading of an absolute sensor, and the covariance *)

(** X4: on the first reading of an absolute sensor, with three channels and
    variances, the origin becomes the zero vector and the position of the
    robot the mean of the measurement less the rotated position of the
    sensor; the quaternion is left as it was. *)
Theorem bootstrap_absolute `{E : Externals} {ES : ExternalsSized E}
        (hw : hardware) (i : nat) (s : state) :
  origin_of s = [] -> absolute s = true ->
  size (innovation s) = 3 -> hasVar s = true ->
  length (x (measurement s)) = 3 -> length (x (Robot.pose (robot s))) = 7 ->
  let r := acquired hw i s in
  let Tr := rotate (subrange (x (Robot.pose (robot s))) 3 7) (subrange (x (pose s)) 0 3) in
  let s' := fst (process hw i s) in
  snd (process hw i s) = Ok tt /\
  x (measurement s') = [vget r 2 - 0; vget r 1 - 0; vget r 3 - 0]%float /\
  origin_of s' = zero_vec 3 /\
  subrange (x (Robot.pose (robot s'))) 0 3 = vsub (x (measurement s')) Tr /\
  subrange (x (Robot.pose (robot s'))) 3 7 = subrange (x (Robot.pose (robot s))) 3 7.
Proof.
  intros Ho Ha Hn Hv Hm Hx. open_state s. subst o abs n hv.
  explode Hm. explode Hx.
  destruct ufi; run_process;
    match goal with
    | |- context [rotate ?q ?T] =>
        let HT := fresh "HT" in
        pose proof (rotate_size q T) as HT; revert HT;
        generalize (rotate q T); intros Tr HT; explode HT
    end; auto 10.
Qed.

Lemma bootstrap_absolute_witness :
  let s := sensor0 true false [1; 0; 0]%float hw555 in
  let s' := fst (process hw555 0 s) in
  origin_of s = [] /\ absolute s = true /\
  size (innovation s) = 3 /\ hasVar s = true /\
  length (x (measurement s)) = 3 /\ length (x (Robot.pose (robot s))) = 7 /\
  origin_of s' = [0; 0; 0]%float /\
  subrange (x (Robot.pose (robot s'))) 0 3 = [4; 5; 5]%float.
Proof.
  cbv zeta.
  pose proof (bootstrap_absolute hw555 0 (sensor0 true false [1; 0; 0]%float hw555)
                eq_refl eq_refl eq_refl eq_refl eq_refl eq_refl) as H.
  cbv zeta in H. destruct H as (_ & Hm & Ho & Hp & _).
  do 6 (split; [reflexivity|]).
  split; [exact Ho | rewrite Hp, Hm; vm_compute; reflexivity].
Defined.

(** X5: on a first reading, whatever the policy, the covariance of the
    position becomes the covariance of the measurement plus [prod_JPJt] of
    the covariance of the quaternion (rows and columns 3 to 6 of the pose
    covariance) and [EXP_q], the Jacobian of the rotated position of the
    sensor in the quaternion. *)
Theorem bootstrap_covariance `{E : Externals} (hw : hardware) (i : nat) (s : state) :
  origin_of s = [] -> size (innovation s) = 3 -> hasVar s = true ->
  shape 3 3 (P (measurement s)) -> shape 7 7 (P (Robot.pose (robot s))) ->
  let q := subrange (x (Robot.pose (robot s))) 3 7 in
  let T := subrange (x (pose s)) 0 3 in
  let Pqq := msubrange (P (Robot.pose (robot s))) 3 7 3 7 in
  shape 3 3 (prod_JPJt Pqq (rotate_by_dq q T)) ->
  let s' := fst (process hw i s) in
  EXP_q s' = rotate_by_dq q T /\
  msubrange (P (Robot.pose (robot s'))) 0 3 0 3 =
    madd (P (measurement s')) (prod_JPJt Pqq (EXP_q s')).
Proof.
  intros Ho Hn Hv Hm HP q T Pqq HB. subst q T Pqq. open_state s. subst o n hv.
  explode_shape Hm. explode_shape HP.
  destruct ufi, abs; run_process; run_process_in HB; revert HB;
    match goal with
    | |- context [prod_JPJt ?p ?j] => generalize (prod_JPJt p j)
    end; intros B HB; explode_shape HB; auto.
Qed.

Lemma bootstrap_covariance_witness :
  let s := sensor0 false false [1; 0; 0]%float hw555 in
  let s' := fst (process hw555 0 s) in
  origin_of s = [] /\ size (innovation s) = 3 /\ hasVar s = true /\
  shape 3 3 (P (measurement s)) /\ shape 7 7 (P (Robot.pose (robot s))) /\
  msubrange (P (Robot.pose (robot s'))) 0 3 0 3
    = [[4.25; 0; 0]; [0; 4.25; 0]; [0; 0; 4.25]]%float.
Proof.
  cbv zeta.
  assert (Hm : shape 3 3 (P (measurement (sensor0 false false [1; 0; 0]%float hw555))))
    by (split; [reflexivity | repeat constructor]).
  assert (HP : shape 7 7 (P (Robot.pose (robot (sensor0 false false [1; 0; 0]%float hw555)))))
    by (split; [reflexivity | repeat constructor]).
  assert (HB : shape 3 3
                 (prod_JPJt
                    (msubrange (P (Robot.pose (robot
                       (sensor0 false false [1; 0; 0]%float hw555)))) 3 7 3 7)
                    (rotate_by_dq
                       (subrange (x (Robot.pose (robot
                          (sensor0 false false [1; 0; 0]%float hw555)))) 3 7)
                       (subrange (x (pose (sensor0 false false [1; 0; 0]%float hw555))) 0 3))))
    by (split; [vm_compute; reflexivity | vm_compute; repeat constructor]).
  pose proof (bootstrap_covariance hw555 0 (sensor0 false false [1; 0; 0]%float hw555)
                eq_refl eq_refl eq_refl Hm HP HB) as H.
  cbv zeta in H. destruct H as (_ & Hblock).
  do 3 (split; [reflexivity|]). split; [exact Hm|]. split; [exact HP|].
  rewrite Hblock. vm_compute. reflexivity.
Defined.

(** ** The calls that leave the sensor *)



(** X7: on a reading that is not the first, with three channels and
    variances, the mean of the measurement is the reading in the order
    (2, 1, 3) less the origin, the robot pose is what the filter's [correct]
    makes of it with the innovation and [INN_rs], and the origin is as it was. *)
Theorem correction_step `{E : Externals} (hw : hardware) (i : nat) (s : state) :
  origin_of s <> [] -> size (innovation s) = 3 -> hasVar s = true ->
  length (x (measurement s)) = 3 ->
  let r := acquired hw i s in
  let o := origin_of s in
  let s' := fst (process hw i s) in
  x (measurement s') = [vget r 2 - vget o 0; vget r 1 - vget o 1; vget r 3 - vget o 2]%float /\
  Robot.pose (robot s') = correct (innovation s') (INN_rs s') (Robot.pose (robot s)) /\
  origin_of s' = origin_of s.
Proof.
  intros Ho Hn Hv Hm. open_state s. subst n hv. explode Hm.
  destruct o as [|o0 o]; [contradiction|].
  destruct ufi; run_process; auto.
Qed.

Lemma correction_step_witness :
  let s := run [(hw555, 0)] (sensor0 false false [1; 0; 0]%float hw555) in
  let s' := fst (process hw555 0 s) in
  origin_of s <> [] /\ size (innovation s) = 3 /\ hasVar s = true /\
  length (x (measurement s)) = 3 /\
  x (measurement s') = [1; 0; 0]%float /\
  origin_of s' = [4; 5; 5]%float.
Proof.
  cbv zeta.
  assert (H0 : origin_of (run [(hw555, 0)] (sensor0 false false [1; 0; 0]%float hw555))
               = [4; 5; 5]%float) by (vm_compute; reflexivity).
  assert (Ho : origin_of (run [(hw555, 0)] (sensor0 false false [1; 0; 0]%float hw555))
               <> []).
  { rewrite H0. intro Hnil. apply (f_equal (@length float)) in Hnil. discriminate Hnil. }
  assert (Hn : size (innovation (run [(hw555, 0)]
                 (sensor0 false false [1; 0; 0]%float hw555))) = 3)
    by (vm_compute; reflexivity).
  assert (Hv : hasVar (run [(hw555, 0)] (sensor0 false false [1; 0; 0]%float hw555)) = true)
    by (vm_compute; reflexivity).
  assert (Hm : length (x (measurement (run [(hw555, 0)]
                 (sensor0 false false [1; 0; 0]%float hw555)))) = 3)
    by (vm_compute; reflexivity).
  pose proof (correction_step hw555 0
                (run [(hw555, 0)] (sensor0 false false [1; 0; 0]%float hw555))
                Ho Hn Hv Hm) as H.
  cbv zeta in H. destruct H as (Hx & _ & Hkeep).
  split; [exact Ho|]. split; [exact Hn|]. split; [exact Hv|]. split; [exact Hm|].
  split; [rewrite Hx; vm_compute; reflexivity | rewrite Hkeep; exact H0].
Defined.

(** ** Calibration happens once *)

Lemma process_keeps_calibrated `{E : Externals} (hw : hardware) (i : nat) (s : state) :
  use_for_init s = false -> use_for_init (fst (process hw i s)) = false.
Proof.
  intro Hu. open_state s. subst ufi.
  destruct hv, abs, o, n as [|[|[|[|n]]]]; run_process; reflexivity.
Qed.

Lemma run_keeps_calibrated `{E : Externals} (calls : list (hardware * nat)) :
  forall s, use_for_init s = false -> use_for_init (run calls s) = false.
Proof.
  induction calls as [|[hw i] calls IH]; intros s Hu; cbn [run]; [exact Hu|].
  apply IH. now apply process_keeps_calibrated.
Qed.

(** X8: once [process] has ended normally, [reading] holds the raw that
    [getRaw] gives for the id, not the calibrated one, [use_for_init] is
    off, and it stays off whatever calls follow, so that [init] is not run
    again. *)
Theorem calibration_runs_once `{E : Externals} (hw : hardware) (i : nat) (s : state)
        (calls : list (hardware * nat)) :
  snd (process hw i s) = Ok tt ->
  let s' := fst (process hw i s) in
  reading s' = getRaw hw i /\
  use_for_init s' = false /\
  use_for_init (run calls s') = false.
Proof.
  intro Hok.
  assert (H : reading (fst (process hw i s)) = getRaw hw i /\
              use_for_init (fst (process hw i s)) = false).
  { open_state s.
    destruct ufi, hv, abs, o, n as [|[|[|[|n]]]]; run_process_in Hok;
      try discriminate Hok; run_process; auto. }
  destruct H as [Hr Hu]. cbv zeta. repeat split; auto using run_keeps_calibrated.
Qed.

Lemma calibration_runs_once_witness :
  let s := sensor0 false true (zero_vec 3) hw_calib in
  let s' := fst (process hw_calib 2 s) in
  use_for_init s = true /\ snd (process hw_calib 2 s) = Ok tt /\
  reading s' = [2; 100; 20; 30; 5; 1; 1]%float /\
  use_for_init (run [(hw_calib, 2); (hw555, 0)] s') = false.
Proof.
  cbv zeta.
  assert (Hok : snd (process hw_calib 2 (sensor0 false true (zero_vec 3) hw_calib)) = Ok tt)
    by (vm_compute; reflexivity).
  pose proof (calibration_runs_once hw_calib 2 (sensor0 false true (zero_vec 3) hw_calib)
                [(hw_calib, 2); (hw555, 0)] Hok) as H.
  cbv zeta in H. destruct H as (Hr & _ & Hu).
  split; [reflexivity|]. split; [exact Hok|].
  split; [rewrite Hr; reflexivity | exact Hu].
Defined.

(** ** What a run keeps *)

Lemma process_allocated `{E : Externals} (hw : hardware) (i : nat) (s : state) :
  allocated s -> allocated (fst (process hw i s)).
Proof.
  unfold allocated. intros (Hsz & Hmx & HmP & HE). open_state s.
  destruct ufi, hv, abs, o, n as [|[|[|[|n]]]]; run_process_props;
    rewrite ?length_vset;
    auto 10 using shape_mset, shape_set_msubrange.
Qed.

(** X9: the sizes that [setHardwareSensor] gives the innovation, the
    measurement and [EXP_rs] are kept by every call of [process], whether it
    throws or not. *)
Theorem run_allocated `{E : Externals} (calls : list (hardware * nat)) (s : state) :
  allocated s -> allocated (run calls s).
Proof.
  revert s. induction calls as [|[hw i] calls IH]; intros s Hs; cbn [run]; [exact Hs|].
  apply IH. now apply process_allocated.
Qed.

Lemma run_allocated_witness :
  allocated (sensor0 false true (zero_vec 3) hw_calib) /\
  allocated (run [(hw_calib, 2); (hw7, 0); (hw555, 0)]
                 (sensor0 false true (zero_vec 3) hw_calib)).
Proof.
  assert (Ha : allocated (sensor0 false true (zero_vec 3) hw_calib))
    by apply setHardwareSensor_allocated.
  exact (conj Ha (run_allocated [(hw_calib, 2); (hw7, 0); (hw555, 0)] _ Ha)).
Defined.

Lemma process_keeps_diagonal `{E : Externals} (hw : hardware) (i : nat) (s : state) :
  diagonal (P (measurement s)) -> diagonal (P (measurement (fst (process hw i s)))).
Proof.
  intro Hd. open_state s.
  destruct ufi, hv, abs, o, n as [|[|[|[|n]]]]; run_process_props;
    auto using diagonal_mset.
Qed.

(** X10: from [setHardwareSensor] on, whatever the hardware and whatever
    calls of [process] follow, the covariance of the measurement has zeros
    off its diagonal. *)
Theorem run_measurement_cov_diagonal `{E : Externals} (hw0 : hardware) (s0 : state)
        (calls : list (hardware * nat)) :
  diagonal (P (measurement (run calls (setHardwareSensor hw0 s0)))).
Proof.
  assert (H0 : diagonal (P (measurement (setHardwareSensor hw0 s0)))).
  { unfold setHardwareSensor. destruct (varianceSize hw0 =? dataSize hw0);
      cbn -[zero_mat diagonal]; apply diagonal_zero_mat. }
  revert H0. generalize (setHardwareSensor hw0 s0). clear s0.
  induction calls as [|[hw i] calls IH]; intros s Hs; cbn [run]; [exact Hs|].
  apply IH. now apply process_keeps_diagonal.
Qed.

Lemma process_keeps_configuration `{E : Externals} (hw : hardware) (i : nat) (s : state) :
  let s' := fst (process hw i s) in
  inns s' = inns s /\ hasVar s' = hasVar s /\ absolute s' = absolute s /\ pose s' = pose s /\
  size (innovation s') = size (innovation s).
Proof.
  open_state s.
  destruct ufi, hv, abs, o, n as [|[|[|[|n]]]]; run_process; auto 10.
Qed.

(** X11: no call of [process] changes the number of channels, [hasVar],
    the policy [absolute], the pose of the sensor on the robot (its
    lever-arm) or the size of the innovation. *)
Theorem run_keeps_configuration `{E : Externals} (calls : list (hardware * nat)) (s : state) :
  let s' := run calls s in
  inns s' = inns s /\ hasVar s' = hasVar s /\ absolute s' = absolute s /\ pose s' = pose s /\
  size (innovation s') = size (innovation s).
Proof.
  cbv zeta. revert s. induction calls as [|[hw i] calls IH]; intros s; cbn [run]; [auto 10|].
  destruct (IH (fst (process hw i s))) as (H1 & H2 & H3 & H4 & H5).
  pose proof (process_keeps_configuration hw i s) as H. cbv zeta in H.
  destruct H as (G1 & G2 & G3 & G4 & G5).
  repeat split; congruence.
Qed.

Lemma process_disabled `{E : Externals} (hw : hardware) (i : nat) (s : state) :
  size (innovation s) <> 3 \/ hasVar s = false ->
  Robot.pose (robot (fst (process hw i s))) = Robot.pose (robot s) /\
  snd (process hw i s) <> Ok tt.
Proof.
  intro Hdis. open_state s.
  destruct ufi, hv, abs, o, n as [|[|[|[|n]]]]; run_process;
    try (split; [reflexivity | discriminate]);
    exfalso; (destruct Hdis as [H|H]; [apply H; reflexivity | discriminate H]).
Qed.

(** X12: a sensor whose innovation has not three components, or whose
    hardware gives no variance, never moves the robot: along any run the
    robot pose is as it was at the start, and every further call throws. *)
Theorem disabled_sensor_never_moves_pose `{E : Externals}
        (calls : list (hardware * nat)) (s : state) (hw : hardware) (i : nat) :
  size (innovation s) <> 3 \/ hasVar s = false ->
  Robot.pose (robot (run calls s)) = Robot.pose (robot s) /\
  (exists e, snd (process hw i (run calls s)) = Throw e).
Proof.
  intro Hdis.
  assert (Hrun : Robot.pose (robot (run calls s)) = Robot.pose (robot s) /\
                 (size (innovation (run calls s)) <> 3 \/ hasVar (run calls s) = false)).
  { revert s Hdis. induction calls as [|[hw0 i0] calls IH]; intros s Hdis; cbn [run];
      [split; [reflexivity | exact Hdis]|].
    pose proof (process_keeps_configuration hw0 i0 s) as Hc. cbv zeta in Hc.
    destruct Hc as (_ & Hv & _ & _ & Hsz).
    destruct (IH (fst (process hw0 i0 s))) as [Hp Hd].
    { rewrite Hsz, Hv. exact Hdis. }
    split; [|exact Hd]. rewrite Hp. apply process_disabled. exact Hdis. }
  destruct Hrun as [Hp Hd]. split; [exact Hp|].
  destruct (process_disabled hw i (run calls s) Hd) as [_ Hne].
  destruct (snd (process hw i (run calls s))) as [[]|e]; [contradiction | eauto].
Qed.

Lemma disabled_sensor_never_moves_pose_witness :
  let s := sensor0 false false (zero_vec 3) hw7 in
  (size (innovation s) <> 3 \/ hasVar s = false) /\
  Robot.pose (robot (run [(hw7, 0); (hw555, 0)] s)) = Robot.pose (robot s) /\
  (exists e, snd (process hw7 0 (run [(hw7, 0); (hw555, 0)] s)) = Throw e).
Proof.
  cbv zeta.
  assert (Hdis : size (innovation (sensor0 false false (zero_vec 3) hw7)) <> 3 \/
                 hasVar (sensor0 false false (zero_vec 3) hw7) = false)
    by (left; cbn; discriminate).
  exact (conj Hdis
           (disabled_sensor_never_moves_pose [(hw7, 0); (hw555, 0)]
              (sensor0 false false (zero_vec 3) hw7) hw7 0 Hdis)).
Defined.

(** X13: [setHardwareSensor] sets the number of channels to that of the
    hardware, gives the innovation, the measurement and the three Jacobians
    their sizes, and turns [hasVar] on when the hardware has as many
    variances as values; it never turns [hasVar] off, and leaves the robot,
    the policy, [use_for_init], the reading and the pose of the sensor. *)
Theorem setHardwareSensor_configures (hw : hardware) (s : state) :
  let s' := setHardwareSensor hw s in
  allocated s' /\ inns s' = dataSize hw /\
  shape (dataSize hw) 4 (EXP_q s') /\ shape (dataSize hw) ia_rs_size (INN_rs s') /\
  hasVar s' = (hasVar s || (varianceSize hw =? dataSize hw)) /\
  robot s' = robot s /\ pose s' = pose s /\ absolute s' = absolute s /\
  use_for_init s' = use_for_init s /\ reading s' = reading s.
Proof.
  cbv zeta. split; [apply setHardwareSensor_allocated|].
  unfold setHardwareSensor.
  destruct (varianceSize hw =? dataSize hw); cbn -[zero_mat shape];
    rewrite ?orb_true_r, ?orb_false_r; auto 12 using shape_zero_mat.
Qed.

(** ** The window of [init] *)

Lemma visited_app_target (i : nat) (it : RawInfo) (l1 l2 : list RawInfo) :
  Forall (fun a => id a <> i) l1 -> id it = i ->
  visited i (l1 ++ it :: l2) = l1 ++ [it].
Proof.
  intros Hl1 Hit. induction Hl1 as [|a l1 Ha _ IH]; cbn [app visited].
  - rewrite Hit, Nat.eqb_refl. reflexivity.
  - apply Nat.eqb_neq in Ha. rewrite Ha, IH. reflexivity.
Qed.

Lemma fold_min_var_ext (hw hw' : hardware) (n : nat) (infos : list RawInfo) :
  (forall j, observeRaw hw' j = observeRaw hw j) ->
  forall acc, fold_left (min_var_body hw' n) infos acc
              = fold_left (min_var_body hw n) infos acc.
Proof.
  intro Hobs. induction infos as [|a l IH]; intro acc; cbn [fold_left]; [reflexivity|].
  rewrite IH. unfold min_var_body. rewrite Hobs. reflexivity.
Qed.

Lemma fold_average_ext (hw hw' : hardware) (n : nat) (mv : vec) (infos : list RawInfo) :
  (forall j, observeRaw hw' j = observeRaw hw j) ->
  forall acc, fold_left (average_body hw' n mv) infos acc
              = fold_left (average_body hw n mv) infos acc.
Proof.
  intro Hobs. induction infos as [|a l IH]; intro acc; cbn [fold_left]; [reflexivity|].
  rewrite IH. unfold average_body. rewrite Hobs. reflexivity.
Qed.

(** X14: both loops of [init] stop at the first raw that has the id asked
    for: the raws listed after it have no part in the reading that [init]
    leaves. *)
Theorem init_stops_at_target (hw hw' : hardware) (n i : nat) (rd : vec)
        (it : RawInfo) (l1 l2 l2' : list RawInfo) :
  Forall (fun a => id a <> i) l1 -> id it = i ->
  available hw = l1 ++ it :: l2 -> available hw' = l1 ++ it :: l2' ->
  (forall j, observeRaw hw' j = observeRaw hw j) ->
  visited i (available hw) = l1 ++ [it] /\
  init_reading hw' n i rd = init_reading hw n i rd.
Proof.
  intros Hl1 Hit Hav Hav' Hobs.
  assert (Hv : visited i (available hw) = l1 ++ [it])
    by (rewrite Hav; now apply visited_app_target).
  assert (Hv' : visited i (available hw') = l1 ++ [it])
    by (rewrite Hav'; now apply visited_app_target).
  split; [exact Hv|].
  unfold init_reading, init_locals. rewrite Hv, Hv'.
  rewrite (fold_min_var_ext hw hw' n _ Hobs).
  destruct (fold_left (min_var_body hw n) (l1 ++ [it]) (rd, repeat 1e3%float 3)) as [r1 mv].
  rewrite (fold_average_ext hw hw' n mv _ Hobs). reflexivity.
Qed.

Lemma init_stops_at_target_witness :
  Forall (fun a => id a <> 1) [mkRawInfo 0] /\ id (mkRawInfo 1) = 1 /\
  available hw_calib = [mkRawInfo 0] ++ mkRawInfo 1 :: [mkRawInfo 2] /\
  available hw_calib_short = [mkRawInfo 0] ++ mkRawInfo 1 :: [] /\
  (forall j, observeRaw hw_calib_short j = observeRaw hw_calib j) /\
  init_reading hw_calib_short 3 1 (zero_vec 7) = init_reading hw_calib 3 1 (zero_vec 7).
Proof.
  assert (Hl1 : Forall (fun a => id a <> 1) [mkRawInfo 0])
    by (apply Forall_cons; [cbn; lia | apply Forall_nil]).
  assert (Hobs : forall j, observeRaw hw_calib_short j = observeRaw hw_calib j)
    by (intro j; reflexivity).
  pose proof (init_stops_at_target hw_calib hw_calib_short 3 1 (zero_vec 7)
                (mkRawInfo 1) [mkRawInfo 0] [mkRawInfo 2] [] Hl1 eq_refl eq_refl eq_refl Hobs)
    as H.
  destruct H as (_ & Heq).
  split; [exact Hl1|]. do 3 (split; [reflexivity|]). split; [exact Hobs | exact Heq].
Defined.

(** X15: when no listed raw has the id asked for, the loops of [init] run
    over the whole list. *)
Theorem visited_target_absent (i : nat) (l : list RawInfo) :
  Forall (fun a => id a <> i) l -> visited i l = l.
Proof.
  induction 1 as [|a l Ha _ IH]; cbn [visited]; [reflexivity|].
  apply Nat.eqb_neq in Ha. rewrite Ha, IH. reflexivity.
Qed.

Lemma visited_target_absent_witness :
  Forall (fun a => id a <> 7) (available hw_calib) /\
  visited 7 (available hw_calib) = available hw_calib.
Proof.
  assert (Hl : Forall (fun a => id a <> 7) (available hw_calib))
    by (repeat (apply Forall_cons; [cbn; lia|]); apply Forall_nil).
  exact (conj Hl (visited_target_absent 7 (available hw_calib) Hl)).
Defined.

(** ** [init] against the estimator of the specification *)

Lemma last_cons_indep {A : Type} (a : A) (l : list A) (d d' : A) :
  last (a :: l) d = last (a :: l) d'.
Proof.
  revert a. induction l as [|b l IH]; intro a; [reflexivity|].
  change (last (b :: l) d = last (b :: l) d'). apply IH.
Qed.

Lemma last_last {A : Type} (l : list A) (d : A) : last l (last l d) = last l d.
Proof.
  destruct l as [|a l]; [reflexivity|]. apply last_cons_indep.
Qed.

Lemma fold_min_var_last (hw : hardware) (n : nat) (infos : list RawInfo) :
  forall acc : vec * vec,
    fst (fold_left (min_var_body hw n) infos acc)
    = last (map (fun it => observeRaw hw (id it)) infos) (fst acc).
Proof.
  induction infos as [|it infos IH]; intro acc; [reflexivity|].
  cbn [fold_left map]. rewrite IH. cbn [min_var_body fst].
  destruct infos as [|it' infos]; [reflexivity|]. cbn [map].
  change (last (observeRaw hw (id it') :: map (fun it0 => observeRaw hw (id it0)) infos)
               (observeRaw hw (id it))
          = last (observeRaw hw (id it') :: map (fun it0 => observeRaw hw (id it0)) infos)
                 (fst acc)).
  apply last_cons_indep.
Qed.

Lemma fold_average_last (hw : hardware) (n : nat) (mv : vec) (infos : list RawInfo) :
  forall acc : vec * (vec * vec),
    fst (fold_left (average_body hw n mv) infos acc)
    = last (map (fun it => observeRaw hw (id it)) infos) (fst acc).
Proof.
  induction infos as [|it infos IH]; intro acc; [reflexivity|].
  cbn [fold_left map]. rewrite IH. cbn [average_body fst].
  destruct infos as [|it' infos]; [reflexivity|]. cbn [map].
  change (last (observeRaw hw (id it') :: map (fun it0 => observeRaw hw (id it0)) infos)
               (observeRaw hw (id it))
          = last (observeRaw hw (id it') :: map (fun it0 => observeRaw hw (id it0)) infos)
                 (fst acc)).
  apply last_cons_indep.
Qed.

Lemma init_locals_reading (hw : hardware) (n i : nat) (rd : vec) :
  fst (fst (init_locals hw n i rd))
  = last (map (fun it => observeRaw hw (id it)) (visited i (available hw))) rd.
Proof.
  unfold init_locals.
  pose proof (fold_min_var_last hw n (visited i (available hw)) (rd, repeat 1e3%float 3)) as H1.
  destruct (fold_left (min_var_body hw n) (visited i (available hw))
              (rd, repeat 1e3%float 3)) as [r1 mv].
  pose proof (fold_average_last hw n mv (visited i (available hw))
                (r1, (zero_vec 3, zero_vec 3))) as H2.
  destruct (fold_left (average_body hw n mv) (visited i (available hw))
              (r1, (zero_vec 3, zero_vec 3))) as [r2 [av sc]].
  cbn [fst] in *. rewrite H2, H1. apply last_last.
Qed.

(** The whole reading that [init] leaves, entry by entry. *)
Lemma init_reading_vector (hw : hardware) (i : nat) (rd : vec) :
  length rd = 7 -> raws_sized hw i 7 ->
  let w := axis_window hw 3 i in
  let r := last (map (fun it => observeRaw hw (id it)) (visited i (available hw))) rd in
  init_reading hw 3 i rd =
    [vget r 0; band_mean (w 0); band_mean (w 1); band_mean (w 2);
     band_min_var (w 0); band_min_var (w 1); band_min_var (w 2)].
Proof.
  intros Hrd Hraw w r.
  assert (Hr : length r = 7).
  { subst r. unfold raws_sized in Hraw.
    induction Hraw as [|it infos Hit _ IH] in rd, Hrd |- *; [exact Hrd|].
    cbn [map]. destruct infos as [|it' infos]; [exact Hit|].
    change (length (last (map (fun it0 => observeRaw hw (id it0)) (it' :: infos))
                         rd) = 7).
    apply IH. exact Hrd. }
  pose proof (init_locals_reading hw 3 i rd) as Hlast. fold r in Hlast.
  pose proof (init_locals_axis hw 3 i 0 rd ltac:(lia)) as H0.
  pose proof (init_locals_axis hw 3 i 1 rd ltac:(lia)) as H1.
  pose proof (init_locals_axis hw 3 i 2 rd ltac:(lia)) as H2.
  cbv zeta in H0, H1, H2. fold (w 0) in H0. fold (w 1) in H1. fold (w 2) in H2.
  destruct H0 as (M0 & A0 & Hlm & Hla). destruct H1 as (M1 & A1 & _).
  destruct H2 as (M2 & A2 & _).
  unfold init_reading.
  destruct (init_locals hw 3 i rd) as [[r' mv] av]. cbn [fst snd] in *.
  rewrite <- M0, <- M1, <- M2, <- A0, <- A1, <- A2. subst r'.
  explode Hr. explode Hlm. explode Hla. reflexivity.
Qed.

(** X16: on a sensor with three channels whose raws have their seven
    entries, [init] never throws and changes the reading only: it leaves
    the date of the last raw it saw, then for each axis the weighted mean of
    the samples of the band, then for each axis the minimum variance. *)
Theorem init_refines (hw : hardware) (i : nat) (s : state) :
  inns s = 3 -> length (reading s) = 7 -> raws_sized hw i 7 ->
  let w := axis_window hw 3 i in
  let r := last (map (fun it => observeRaw hw (id it)) (visited i (available hw)))
                (reading s) in
  init hw i s =
    (set_reading [vget r 0; band_mean (w 0); band_mean (w 1); band_mean (w 2);
                  band_min_var (w 0); band_min_var (w 1); band_min_var (w 2)] s,
     Ok tt).
Proof.
  intros Hn Hrd Hraw. cbv zeta. unfold init, modify. rewrite Hn.
  rewrite (init_reading_vector hw i (reading s) Hrd Hraw). reflexivity.
Qed.

Lemma init_refines_witness :
  let s := sensor0 false true (zero_vec 3) hw_calib in
  inns s = 3 /\ length (reading s) = 7 /\ raws_sized hw_calib 2 7 /\
  init hw_calib 2 s = (set_reading [2; 10.6; 20; 30; 1; 1; 1]%float s, Ok tt).
Proof.
  cbv zeta.
  assert (Hraw : raws_sized hw_calib 2 7) by (repeat constructor).
  pose proof (init_refines hw_calib 2 (sensor0 false true (zero_vec 3) hw_calib)
                eq_refl eq_refl Hraw) as H.
  cbv zeta in H.
  do 2 (split; [reflexivity|]). split; [exact Hraw|].
  rewrite H. vm_compute. reflexivity.
Defined.

(** ** The minimum variance *)

Lemma fold_min_lower (w : list sample) :
  forall m0, (m0 <=? m0)%float = true ->
    let m := fold_left (fun m s => if (snd s <? m)%float then snd s else m) w m0 in
    (m <=? m0)%float = true /\
    Forall (fun s => (snd s <=? snd s)%float = true -> (m <=? snd s)%float = true) w.
Proof.
  induction w as [|s w IH]; intros m0 Hm0; cbn [fold_left]; [split; [exact Hm0 | constructor]|].
  cbv zeta in IH. destruct (snd s <? m0)%float eqn:Hlt.
  - destruct (IH (snd s) (ltb_refl_l _ _ Hlt)) as [Hle Hall].
    split; [exact (leb_trans _ _ _ Hle (ltb_leb _ _ Hlt))|].
    constructor; [intros _; exact Hle | exact Hall].
  - destruct (IH m0 Hm0) as [Hle Hall]. split; [exact Hle|].
    constructor; [|exact Hall].
    intro Hs. exact (leb_trans _ _ _ Hle (ltb_false_leb _ _ Hlt Hs Hm0)).
Qed.

Lemma fold_min_membership (w : list sample) :
  forall m0,
    let m := fold_left (fun m s => if (snd s <? m)%float then snd s else m) w m0 in
    m = m0 \/ In m (map snd w).
Proof.
  induction w as [|s w IH]; intro m0; cbn [fold_left map]; [now left|].
  cbv zeta in IH.
  destruct (snd s <? m0)%float.
  - destruct (IH (snd s)) as [H|H]; right; [left; now rewrite H | right; exact H].
  - destruct (IH m0) as [H|H]; [left; exact H | right; right; exact H].
Qed.

(** X17: on each axis, the [min_var] of the first pass is the least of 1e3
    and the variances of the window that are numbers: it is 1e3 or the
    variance of a raw of the window, it is at most 1e3, and it is at most
    the variance of every raw of the window whose variance is not NaN. *)
Theorem min_var_is_minimum (hw : hardware) (n i k : nat) (rd : vec) :
  k < 3 ->
  let min_var := snd (fst (init_locals hw n i rd)) in
  let variance := fun it => vget (observeRaw hw (id it)) (k + 1 + n) in
  (vget min_var k = 1e3%float \/
   exists it, In it (visited i (available hw)) /\ vget min_var k = variance it) /\
  (vget min_var k <=? 1e3)%float = true /\
  (forall it, In it (visited i (available hw)) ->
              (variance it <=? variance it)%float = true ->
              (vget min_var k <=? variance it)%float = true).
Proof.
  intros Hk. cbv zeta.
  pose proof (init_locals_axis hw n i k rd Hk) as H. cbv zeta in H.
  destruct H as (Hmin & _). rewrite Hmin. unfold band_min_var.
  pose proof (fold_min_lower (axis_window hw n i k) 1e3%float eq_refl) as Hlow.
  cbv zeta in Hlow. destruct Hlow as [Hle Hall].
  split; [|split; [exact Hle|]].
  - destruct (fold_min_membership (axis_window hw n i k) 1e3%float) as [H|H].
    + left. exact H.
    + right. unfold axis_window in H at 2. rewrite map_map in H.
      apply in_map_iff in H. destruct H as (it & Heq & Hin).
      exists it. split; [exact Hin|]. cbn [snd] in Heq. now rewrite Heq.
  - intros it Hin Hv. rewrite Forall_forall in Hall.
    apply (Hall (vget (observeRaw hw (id it)) (k + 1), vget (observeRaw hw (id it)) (k + 1 + n))).
    + unfold axis_window. apply in_map_iff. exists it. split; [reflexivity | exact Hin].
    + exact Hv.
Qed.

Lemma min_var_is_minimum_witness :
  0 < 3 /\
  (vget (snd (fst (init_locals hw_calib 3 2 (zero_vec 7)))) 0 <=? 1e3)%float = true /\
  (forall it, In it (visited 2 (available hw_calib)) ->
     (vget (observeRaw hw_calib (id it)) (0 + 1 + 3)
        <=? vget (observeRaw hw_calib (id it)) (0 + 1 + 3))%float = true ->
     (vget (snd (fst (init_locals hw_calib 3 2 (zero_vec 7)))) 0
        <=? vget (observeRaw hw_calib (id it)) (0 + 1 + 3))%float = true).
Proof.
  assert (Hk : 0 < 3) by lia.
  pose proof (min_var_is_minimum hw_calib 3 2 0 (zero_vec 7) Hk) as H.
  cbv zeta in H. destruct H as (_ & Hle & Hall).
  split; [exact Hk|]. split; [exact Hle | exact Hall].
Defined.

Lemma band_min_var_skips_nan (v : float) (w1 w2 : list sample) :
  band_min_var (w1 ++ (v, nan) :: w2) = band_min_var (w1 ++ w2).
Proof.
  unfold band_min_var. rewrite !fold_left_app. cbn [fold_left snd].
  rewrite ltb_nan_l. reflexivity.
Qed.

Lemma band_sums_skips_nan (m v : float) (w1 w2 : list sample) :
  band_sums m (w1 ++ (v, nan) :: w2) = band_sums m (w1 ++ w2).
Proof.
  unfold band_sums. rewrite !fold_left_app. cbn [fold_left snd].
  rewrite ltb_nan_l. reflexivity.
Qed.

(** X18: a raw whose variance on an axis is NaN has no part in what [init]
    computes on that axis: [min_var] and the mean are those of the window
    without that raw. *)
Theorem nan_variance_ignored (hw hw' : hardware) (n i i' k : nat) (rd rd' : vec)
        (v : float) (w1 w2 : list sample) :
  k < 3 ->
  axis_window hw n i k = w1 ++ (v, nan) :: w2 ->
  axis_window hw' n i' k = w1 ++ w2 ->
  vget (snd (fst (init_locals hw n i rd))) k = vget (snd (fst (init_locals hw' n i' rd'))) k /\
  vget (snd (init_locals hw n i rd)) k = vget (snd (init_locals hw' n i' rd')) k.
Proof.
  intros Hk Hw Hw'.
  pose proof (init_locals_axis hw n i k rd Hk) as H. cbv zeta in H.
  destruct H as (Hmin & Hmean & _).
  pose proof (init_locals_axis hw' n i' k rd' Hk) as H. cbv zeta in H.
  destruct H as (Hmin' & Hmean' & _).
  rewrite Hmin, Hmean, Hmin', Hmean', Hw, Hw'. unfold band_mean.
  rewrite band_min_var_skips_nan, band_sums_skips_nan. split; reflexivity.
Qed.

Lemma nan_variance_ignored_witness :
  0 < 3 /\
  axis_window hw_nan 3 1 0 = [(10, 1)]%float ++ (50, nan)%float :: [] /\
  axis_window hw_nan_free 3 0 0 = [(10, 1)]%float ++ [] /\
  vget (snd (fst (init_locals hw_nan 3 1 (zero_vec 7)))) 0
    = vget (snd (fst (init_locals hw_nan_free 3 0 (zero_vec 7)))) 0 /\
  vget (snd (init_locals hw_nan 3 1 (zero_vec 7))) 0
    = vget (snd (init_locals hw_nan_free 3 0 (zero_vec 7))) 0.
Proof.
  assert (Hk : 0 < 3) by lia.
  pose proof (nan_variance_ignored hw_nan hw_nan_free 3 1 0 0 (zero_vec 7) (zero_vec 7)
                50%float [(10, 1)]%float [] Hk eq_refl eq_refl) as H.
  split; [exact Hk|]. do 2 (split; [reflexivity|]). exact H.
Defined.

(** ** A calibrated reading in the model *)

(** X19: when [process] calibrates the reading, the mean of the measurement
    is made of the means of [init], in the order (2, 1, 3) and less the
    origin, and its covariance of the squares of the minimum variances that
    [init] wrote in place of the deviations. *)
Theorem calibrated_measurement `{E : Externals} (hw : hardware) (i : nat) (s : state) :
  use_for_init s = true -> inns s = 3 -> size (innovation s) = 3 -> hasVar s = true ->
  length (reading s) = 7 -> raws_sized hw i 7 ->
  length (x (measurement s)) = 3 ->
  shape 3 3 (P (measurement s)) -> diagonal (P (measurement s)) ->
  let w := axis_window hw 3 i in
  let o := if length (origin_of s) =? 0 then zero_vec 3 else origin_of s in
  let s' := fst (process hw i s) in
  x (measurement s') =
    [PrimFloat.sub (band_mean (w 1)) (vget o 0); PrimFloat.sub (band_mean (w 0)) (vget o 1);
     PrimFloat.sub (band_mean (w 2)) (vget o 2)] /\
  P (measurement s') =
    diag_mat [sqr (band_min_var (w 1)); sqr (band_min_var (w 0)); sqr (band_min_var (w 2))].
Proof.
  intros Hu Hi Hn Hv Hrd Hraw Hm Hshape Hdiag.
  destruct (shape_rows _ _ Hshape) as (r0 & r1 & r2 & HP & H0 & H1 & H2).
  pose proof (init_reading_vector hw i (reading s) Hrd Hraw) as Hinit. cbv zeta in Hinit.
  open_state s. subst ufi ns n hv mP.
  explode Hm. explode H0. explode H1. explode H2.
  pose proof (Hdiag 0 1 ltac:(lia)) as D01. pose proof (Hdiag 0 2 ltac:(lia)) as D02.
  pose proof (Hdiag 1 0 ltac:(lia)) as D10. pose proof (Hdiag 1 2 ltac:(lia)) as D12.
  pose proof (Hdiag 2 0 ltac:(lia)) as D20. pose proof (Hdiag 2 1 ltac:(lia)) as D21.
  cbn in D01, D02, D10, D12, D20, D21. subst.
  destruct abs, o; run_process; rewrite Hinit; split; reflexivity.
Qed.

Lemma calibrated_measurement_witness :
  let s := sensor0 false true (zero_vec 3) hw_calib in
  let s' := fst (process hw_calib 2 s) in
  use_for_init s = true /\ inns s = 3 /\ size (innovation s) = 3 /\ hasVar s = true /\
  length (reading s) = 7 /\ raws_sized hw_calib 2 7 /\
  length (x (measurement s)) = 3 /\
  shape 3 3 (P (measurement s)) /\ diagonal (P (measurement s)) /\
  x (measurement s') = [20; 10.6; 30]%float /\
  P (measurement s') = diag_mat [1; 1; 1]%float.
Proof.
  cbv zeta.
  assert (Hraw : raws_sized hw_calib 2 7) by (repeat constructor).
  assert (Hs : shape 3 3 (P (measurement (sensor0 false true (zero_vec 3) hw_calib))))
    by (split; [reflexivity | repeat constructor]).
  assert (Hd : diagonal (P (measurement (sensor0 false true (zero_vec 3) hw_calib))))
    by exact (diag_mat_diagonal 0 0 0).
  pose proof (calibrated_measurement hw_calib 2 (sensor0 false true (zero_vec 3) hw_calib)
                eq_refl eq_refl eq_refl eq_refl eq_refl Hraw eq_refl Hs Hd) as H.
  cbv zeta in H. destruct H as (Hx & HP).
  do 5 (split; [reflexivity|]). split; [exact Hraw|]. split; [reflexivity|].
  split; [exact Hs|]. split; [exact Hd|].
  split; [rewrite Hx | rewrite HP]; vm_compute; reflexivity.
Defined.
